(** * SmishGrade: the heuristic URL scorer and its WHOIS age cache

    A shallow embedding of [SmishGrade.py].  Python strings are modelled as
    [string] (sequences of code points below 256), Python integers as [Z],
    the module-level dictionaries as [gmap], the module-level sets as
    [gset].  Functions that print, touch the cache, the disk or the WHOIS
    service run in a state-and-exception monad over an explicit [World];
    the third-party libraries ([urllib.parse], [tldextract], [ipaddress],
    [whois]) and the clock are the fields of an [Env] record, and the file
    system with [json] is the [disk] component of the world. *)

From Stdlib Require Import ZArith String Ascii List Bool Lia.
From stdpp Require Import base option list strings gmap pretty.

Local Open Scope Z_scope.

(** ** Python [str] operations used by the program *)

Module PyStr.

Definition len (s : string) : Z := Z.of_nat (String.length s).

(** [s.startswith(p)] *)
Definition startswith (s p : string) : bool := String.prefix p s.

(** [sub in s] *)
Fixpoint contains (sub s : string) : bool :=
  String.prefix sub s ||
  match s with
  | EmptyString => false
  | String _ rest => contains sub rest
  end.

(** [c in s] for a one-character [c] *)
Fixpoint has_char (c : ascii) (s : string) : bool :=
  match s with
  | EmptyString => false
  | String a rest => Ascii.eqb a c || has_char c rest
  end.

(** [s.count(c)] for a one-character [c] *)
Fixpoint count (c : ascii) (s : string) : Z :=
  match s with
  | EmptyString => 0
  | String a rest => (if Ascii.eqb a c then 1 else 0) + count c rest
  end.

(** [s.lower()] on code points below 256: the ASCII capitals and the
    Latin-1 capitals U+00C0..U+00DE other than the multiplication sign. *)
Definition lower_char (a : ascii) : ascii :=
  let n := nat_of_ascii a in
  if ((65 <=? n)%nat && (n <=? 90)%nat)
     || ((192 <=? n)%nat && (n <=? 222)%nat && negb (n =? 215)%nat)
  then ascii_of_nat (n + 32) else a.

Fixpoint lower (s : string) : string :=
  match s with
  | EmptyString => EmptyString
  | String a rest => String (lower_char a) (lower rest)
  end.

(** [s.partition(c)]: text before the first [c], whether [c] was found,
    text after it. *)
Fixpoint partition (c : ascii) (s : string) : string * bool * string :=
  match s with
  | EmptyString => (EmptyString, false, EmptyString)
  | String a rest =>
      if Ascii.eqb a c then (EmptyString, true, rest)
      else let '(h, found, t) := partition c rest in (String a h, found, t)
  end.

(** [s.rpartition(c)]: when [c] is absent the whole text is the last
    component. *)
Fixpoint rpartition (c : ascii) (s : string) : string * bool * string :=
  match s with
  | EmptyString => (EmptyString, false, EmptyString)
  | String a rest =>
      let '(h, found, t) := rpartition c rest in
      if found then (String a h, true, t)
      else if Ascii.eqb a c then (EmptyString, true, rest)
      else (EmptyString, false, String a t)
  end.

(** [s.split(c)] *)
Fixpoint split (c : ascii) (s : string) : list string :=
  match s with
  | EmptyString => [EmptyString]
  | String a rest =>
      if Ascii.eqb a c then EmptyString :: split c rest
      else match split c rest with
           | [] => [String a EmptyString]
           | w :: ws => String a w :: ws
           end
  end.

(** [c.join(parts)] *)
Fixpoint join (c : string) (parts : list string) : string :=
  match parts with
  | [] => EmptyString
  | [w] => w
  | w :: ws => w +:+ c +:+ join c ws
  end.

(** [s.lstrip(chars)] with the character set given as a predicate *)
Fixpoint lstrip (drop : ascii -> bool) (s : string) : string :=
  match s with
  | EmptyString => EmptyString
  | String a rest => if drop a then lstrip drop rest else s
  end.

Fixpoint rstrip (drop : ascii -> bool) (s : string) : string :=
  match s with
  | EmptyString => EmptyString
  | String a rest =>
      match rstrip drop rest with
      | EmptyString => if drop a then EmptyString else String a EmptyString
      | r => String a r
      end
  end.

Definition strip (drop : ascii -> bool) (s : string) : string :=
  rstrip drop (lstrip drop s).

(** [s.replace(c, "")] *)
Fixpoint remove_char (drop : ascii -> bool) (s : string) : string :=
  match s with
  | EmptyString => EmptyString
  | String a rest =>
      if drop a then remove_char drop rest else String a (remove_char drop rest)
  end.

Fixpoint forallb (p : ascii -> bool) (s : string) : bool :=
  match s with
  | EmptyString => true
  | String a rest => p a && forallb p rest
  end.

Definition truthy (s : string) : bool :=
  match s with EmptyString => false | _ => true end.

End PyStr.

(** ** Exceptions, outcomes and the world *)

Inductive exc_class :=
  | AttributeError | ValueError | TypeError | KeyError | IndexError
  | FileNotFoundError | PermissionError | OSError
  | JSONDecodeError | UnicodeDecodeError
  | WhoisError | TimeoutError.

Record py_exception := Exc { exc_type : exc_class; exc_msg : string }.

Inductive outcome (A : Type) :=
  | Return (a : A)
  | Raise (e : py_exception).
Arguments Return {A} a.
Arguments Raise {A} e.

(** A JSON document without a length: a number, [true], [false] or
    [null], told apart by the Python type that [json.load] gives it. *)
Inductive json_scalar := JsonInt | JsonFloat | JsonBool | JsonNull.

Definition type_name (v : json_scalar) : string :=
  match v with
  | JsonInt => "int"
  | JsonFloat => "float"
  | JsonBool => "bool"
  | JsonNull => "NoneType"
  end.

(** The file [whois_cache.json] as the operating system and [json]
    present it: what reading finds, and whether the file can be written.
    The documents are the object of integers, the only shape the program
    writes, and the scalars.  A file that holds a JSON array, a string or
    an object with a value that is no integer is not a state of this
    model: [json.load] accepts it and [len] measures it, so the program
    goes on with a cache that is no dictionary of integers, which the
    global of [World] cannot hold. *)
Inductive disk_state :=
  | NoFile
  | JsonFile (d : gmap string Z)   (* the JSON text of the dictionary [d] *)
  | JsonScalar (v : json_scalar)   (* the JSON text of a number, [true], [false] or [null] *)
  | Garbage (content : string)     (* text that [json.load] rejects *)
  | Undecodable                    (* bytes that are not text in the encoding of
                                      [open]: a first byte 0xff under UTF-8 *)
  | Broken (e : py_exception)      (* [open] raises [e], for reading and for writing *)
  | Unwritable (e : py_exception) (inner : disk_state)
                                   (* read as [inner]; [open(..., 'w')] raises [e]:
                                      a read-only file or directory *)
  | Full (inner : disk_state).     (* read as [inner]; [open(..., 'w')] empties the
                                      file and the write raises: no space left *)

(** What [json.load] returns. *)
Inductive json_document :=
  | JsonDict (d : gmap string Z)
  | JsonNoLen (v : json_scalar).

Definition no_space_left : py_exception :=
  Exc OSError "[Errno 28] No space left on device".

(** [with open(whois_cache_file, 'r') as f: json.load(f)] on the disk. *)
Fixpoint disk_read (d : disk_state) : outcome json_document :=
  match d with
  | NoFile =>
      Raise (Exc FileNotFoundError
               "[Errno 2] No such file or directory: 'whois_cache.json'")
  | JsonFile c => Return (JsonDict c)
  | JsonScalar v => Return (JsonNoLen v)
  | Garbage _ => Raise (Exc JSONDecodeError "Expecting value")
  | Undecodable =>
      Raise (Exc UnicodeDecodeError
               "'utf-8' codec can't decode byte 0xff in position 0: invalid start byte")
  | Broken e => Raise e
  | Unwritable _ inner | Full inner => disk_read inner
  end.

(** A write that fails: the exception that [open(whois_cache_file, 'w')]
    or the writing raises, and the file it leaves.  A refused [open]
    touches nothing; on a full device [open] has emptied the file before
    the write fails, and [json.load] rejects what is left. *)
Definition write_failure (d : disk_state) : option (py_exception * disk_state) :=
  match d with
  | Broken e | Unwritable e _ => Some (e, d)
  | Full _ => Some (no_space_left, Full (Garbage ""))
  | NoFile | JsonFile _ | JsonScalar _ | Garbage _ | Undecodable => None
  end.

(** [with open(whois_cache_file, 'w') as f: json.dump(c, f, indent=4)]
    on the disk. *)
Definition disk_write (c : gmap string Z) (d : disk_state)
    : outcome unit * disk_state :=
  match write_failure d with
  | Some (e, after) => (Raise e, after)
  | None => (Return tt, JsonFile c)
  end.

Record World := mkWorld {
  whois_cache : gmap string Z;   (* the global dictionary *)
  stdout : list string;          (* one entry per [print] call, oldest first *)
  whois_log : list string;       (* domains sent to [whois.whois], oldest first *)
  sleeps : nat;                  (* completed [time.sleep(1.5)] calls *)
  disk : disk_state
}.

Definition M (A : Type) : Type := World -> outcome A * World.

Global Instance M_ret : MRet M := λ A a w, (Return a, w).
Global Instance M_bind : MBind M := λ A B f m w,
  match m w with
  | (Return a, w') => f a w'
  | (Raise e, w') => (Raise e, w')
  end.

Definition raise {A} (e : py_exception) : M A := λ w, (Raise e, w).

(** [try: body / except Exception as e: handler e].  Every member of
    [exc_class] derives from [Exception]; effects of the body up to the
    point of the raise are kept. *)
Definition try_except {A} (body : M A) (handler : py_exception -> M A) : M A :=
  λ w, match body w with
       | (Return a, w') => (Return a, w')
       | (Raise e, w') => handler e w'
       end.

(** [except cls:] for a class without modelled subclasses. *)
Definition catches (cls : exc_class) (e : py_exception) : bool :=
  match cls, exc_type e with
  | FileNotFoundError, FileNotFoundError => true
  | JSONDecodeError, JSONDecodeError => true
  | _, _ => false
  end.

Definition lift {A} (o : outcome A) : M A := λ w, (o, w).

Definition print (line : string) : M unit := λ w,
  (Return tt, mkWorld (whois_cache w) (stdout w ++ [line]) (whois_log w) (sleeps w) (disk w)).

Definition get_cache : M (gmap string Z) := λ w, (Return (whois_cache w), w).

Definition set_cache (c : gmap string Z) : M unit := λ w,
  (Return tt, mkWorld c (stdout w) (whois_log w) (sleeps w) (disk w)).

(** [whois_cache[domain] = v] *)
Definition cache_setitem (domain : string) (v : Z) : M unit := λ w,
  (Return tt, mkWorld (<[domain := v]> (whois_cache w)) (stdout w) (whois_log w) (sleeps w) (disk w)).

Definition time_sleep : M unit := λ w,
  (Return tt, mkWorld (whois_cache w) (stdout w) (whois_log w) (S (sleeps w)) (disk w)).

(** [d[key]] on a dictionary *)
Definition dict_getitem (d : gmap string Z) (key : string) : M Z :=
  match d !! key with
  | Some v => mret v
  | None => raise (Exc KeyError key)
  end.

(** [d.append(x)] on a dictionary: [dict] has no attribute [append]. *)
Definition dict_append (d : gmap string Z) (x : string) : M unit :=
  raise (Exc AttributeError "'dict' object has no attribute 'append'").

(** [l.append(x)] on a list *)
Definition list_append (l : list string) (x : string) : list string := l ++ [x].

(** ** What the program consumes from its libraries *)

(** [urlparse(u)]: the two attributes the scorer reads.  [hostname] is
    [None] when the network location has no host part. *)
Record ParsedUrl := mkParsedUrl {
  pr_hostname : option string;
  pr_path : string
}.

(** [tldextract.extract(u)] *)
Record ExtractResult := mkExtractResult {
  er_subdomain : string;
  er_domain : string;
  er_suffix : string
}.

(** The [top_domain_under_public_suffix] property of an [ExtractResult]. *)
Definition top_domain_under_public_suffix (e : ExtractResult) : string :=
  if PyStr.truthy (er_suffix e) && PyStr.truthy (er_domain e)
  then er_domain e +:+ "." +:+ er_suffix e
  else "".

Inductive ip_version := IPv4 | IPv6.

(** A creation date as [python-whois] reports it: a [datetime] (aware or
    naive, in microseconds since the epoch) or unparsed text. *)
Inductive py_date :=
  | Datetime (aware : bool) (micros : Z)
  | DateText (s : string).

Inductive creation_date_t :=
  | CdNone
  | CdOne (d : py_date)
  | CdList (l : list py_date).

Record Env := mkEnv {
  urlparse : string -> outcome ParsedUrl;
  tld_extract : string -> outcome ExtractResult;
  ip_address : string -> option ip_version;       (* [None]: [ValueError] *)
  whois_whois : nat -> string -> outcome creation_date_t;
                                                  (* answer to the k-th query *)
  utc_now : nat -> Z                              (* clock at the k-th query, microseconds *)
}.

(** ** Module-level configuration *)

Definition abused_TLD : gset string :=
  {[ ".xyz"; ".top"; ".link"; ".club"; ".online"; ".live" ]}.

Definition suspicious_keywords : gset string :=
  {[ "login"; "verify"; "secure"; "account"; "update"; "bank" ]}.

Definition heuristic_weights : gmap string Z :=
  <[ "H1_Length" := 5 ]> (
  <[ "H2_IP_Hostname" := 40 ]> (
  <[ "H3_At_Symbol" := 10 ]> (
  <[ "H4_Keywords" := 5 ]> (
  <[ "H5_Subdomains" := 15 ]> (
  <[ "H6_Abused_TLD" := 20 ]> (
  <[ "H7_Domain_Age" := 50 ]> ∅)))))).

Definition malicious_threshold : Z := 20.
Definition suspicious_threshold : Z := 1.

Definition whois_cache_file : string := "whois_cache.json".

(** The line feed written [\n] in the program's messages. *)
Definition nl : string := String "010"%char EmptyString.

(** ** The program *)

Section Program.

Context (env : Env).

(** [with open(whois_cache_file, 'r') as f: json.load(f)] *)
Definition read_cache_file : M json_document := λ w, (disk_read (disk w), w).

(** [with open(whois_cache_file, 'w') as f: json.dump(whois_cache, f, indent=4)] *)
Definition write_cache_file (d : gmap string Z) : M unit := λ w,
  ((disk_write d (disk w)).1,
   mkWorld (whois_cache w) (stdout w) (whois_log w) (sleeps w)
           (disk_write d (disk w)).2).

(** Lines 77 and 78 bind the global to the document and print its
    length.  For a scalar [len] raises [TypeError] with the global bound
    to the scalar; the model keeps the dictionary it had, and no caller
    reads the cache after this exception: the main block ends with it. *)
Definition check_cache : M unit := λ w,
  match (doc ← read_cache_file;
         match doc with
         | JsonDict d =>
             set_cache d;;
             print ("Found " +:+ pretty (size d) +:+ " entries from "
                    +:+ whois_cache_file +:+ ".")
         | JsonNoLen v =>
             raise (Exc TypeError
                      ("object of type '" +:+ type_name v +:+ "' has no len()"))
         end) w with
  | (Return u, w') => (Return u, w')
  | (Raise e, w') =>
      if catches FileNotFoundError e then
        (print "No cache file found. Starting a new one.";;
         set_cache ∅) w'
      else if catches JSONDecodeError e then
        (print "Cache file is broken. Starting a new one.";;
         set_cache ∅) w'
      else (Raise e, w')
  end.

Definition save_cache : M unit :=
  try_except
    (c ← get_cache;
     write_cache_file c;;
     c' ← get_cache;
     print (nl +:+ "Cache saved. There are " +:+ pretty (size c') +:+ " entries"))
    (λ error_message,
       print ("Could not save cache: " +:+ exc_msg error_message)).

(** [whois.whois(domain)]: the query is recorded, then answered. *)
Definition whois_query (domain : string) : M creation_date_t := λ w,
  (whois_whois env (length (whois_log w)) domain,
   mkWorld (whois_cache w) (stdout w) (whois_log w ++ [domain]) (sleeps w) (disk w)).

(** [datetime.now(timezone.utc)] *)
Definition datetime_now : M Z := λ w,
  (Return (utc_now env (length (whois_log w))), w).

(** Truth value of [domain_info.creation_date] *)
Definition creation_date_truthy (cd : creation_date_t) : bool :=
  match cd with
  | CdNone => false
  | CdOne (Datetime _ _) => true
  | CdOne (DateText s) => PyStr.truthy s
  | CdList [] => false
  | CdList (_ :: _) => true
  end.

(** [(now - origin_date).days] for an aware [now] *)
Definition days_since (now : Z) (origin_date : py_date) : M Z :=
  match origin_date with
  | Datetime true micros => mret ((now - micros) `div` 86400000000)
  | Datetime false _ =>
      raise (Exc TypeError "can't subtract offset-naive and offset-aware datetimes")
  | DateText _ =>
      raise (Exc TypeError "unsupported operand type(s) for -: 'datetime.datetime' and 'str'")
  end.

Definition get_domain_age (domain : string) : M Z :=
  cache ← get_cache;
  match cache !! domain with
  | Some age => mret age
  | None =>
      print (nl +:+ " Looking up " +:+ domain);;
      try_except
        (time_sleep;;
         creation_date ← whois_query domain;
         if creation_date_truthy creation_date then
           origin_date ← match creation_date with
                         | CdList (d :: _) => mret d
                         | CdList [] => raise (Exc IndexError "list index out of range")
                         | CdOne d => mret d
                         | CdNone => raise (Exc TypeError "unsupported operand type(s) for -: 'datetime.datetime' and 'NoneType'")
                         end;
           now ← datetime_now;
           age_in_days ← days_since now origin_date;
           cache_setitem domain age_in_days;;
           mret age_in_days
         else
           cache_setitem domain (-1);;
           mret (-1))
        (λ e,
           print ("Failed for " +:+ domain +:+ ": " +:+ exc_msg e);;
           cache_setitem domain (-1);;
           mret (-1))
  end.

(** The verdict computed at the end of [analyze_url]. *)
Definition final_verdict (total_score : Z) : string :=
  if malicious_threshold <=? total_score then "Malicious"
  else if suspicious_threshold <=? total_score then "Suspicious"
  else "Benign".

(** The keyword loop of [analyze_url]: the first keyword found in the
    lower-cased path adds the weight once and leaves the loop. *)
Fixpoint keyword_loop (keywords : list string) (path : string)
    (total_score : Z) (heuristics_found : list string) : M (Z * list string) :=
  match keywords with
  | [] => mret (total_score, heuristics_found)
  | keyword :: rest =>
      if PyStr.contains keyword (PyStr.lower path) then
        w ← dict_getitem heuristic_weights "H4_Keywords";
        mret (total_score + w, list_append heuristics_found "H4_Keywords")
      else keyword_loop rest path total_score heuristics_found
  end.

(** [try: ipaddress.ip_address(hostname) ... except ValueError: ...] *)
Definition hostname_is_ip (hostname : string) : bool :=
  match ip_address env hostname with
  | Some _ => true
  | None => false
  end.

Definition url_to_parse (url : string) : string :=
  if negb (PyStr.startswith url "http://" || PyStr.startswith url "https://")
  then "http://" +:+ url
  else url.

(** The [try] block of [analyze_url]: [inl] is the early [return] for an
    empty hostname, [inr] carries the features on to the heuristics. *)
Definition parse_features (url : string)
    : M ((Z * string * list string * Z) + (string * string * string * string * string)) :=
  try_except
    (parsed_url ← lift (urlparse env (url_to_parse url));
     let hostname := pr_hostname parsed_url in
     let path := pr_path parsed_url in
     extracted_domain ← lift (tld_extract env (url_to_parse url));
     let main_domain := top_domain_under_public_suffix extracted_domain in
     let subdomain := er_subdomain extracted_domain in
     let tld := "." +:+ er_suffix extracted_domain in
     match hostname with
     | None | Some EmptyString => mret (inl (0, "Error-No-Hostname", [], -1))
     | Some hostname => mret (inr (hostname, path, main_domain, subdomain, tld))
     end)
    (λ error_message,
       print ("Failed to parse " +:+ url +:+ ": " +:+ exc_msg error_message);;
       mret (inl (0, "Error-Parsing", [], -1))).

Definition analyze_url (url : string) : M (Z * string * list string * Z) :=
  let heuristics_found : list string := [] in
  let total_score := 0 in
  parsed ← parse_features url;
  match parsed with
  | inl early => mret early
  | inr (hostname, path, main_domain, subdomain, tld) =>
      '(total_score, heuristics_found) ←
        (if 75 <? PyStr.len url then
           w ← dict_getitem heuristic_weights "H1_Length";
           dict_append heuristic_weights "H1_Length";;
           mret (total_score + w, heuristics_found)
         else mret (total_score, heuristics_found));
      let is_ip := hostname_is_ip hostname in
      '(total_score, heuristics_found) ←
        (if is_ip then
           w ← dict_getitem heuristic_weights "H2_IP_Hostname";
           mret (total_score + w, list_append heuristics_found "H2_IP_Hostname")
         else mret (total_score, heuristics_found));
      '(total_score, heuristics_found) ←
        (if PyStr.has_char "@" url then
           w ← dict_getitem heuristic_weights "H3_At_Symbol";
           mret (total_score + w, list_append heuristics_found "H3_At_Symbol")
         else mret (total_score, heuristics_found));
      '(total_score, heuristics_found) ←
        keyword_loop (elements suspicious_keywords) path total_score heuristics_found;
      '(total_score, heuristics_found) ←
        (if 2 <=? PyStr.count "." subdomain then
           w ← dict_getitem heuristic_weights "H5_Subdomains";
           mret (total_score + w, list_append heuristics_found "H5_Subdomains")
         else mret (total_score, heuristics_found));
      '(total_score, heuristics_found) ←
        (if bool_decide (tld ∈ abused_TLD) then
           w ← dict_getitem heuristic_weights "H6_Abused_TLD";
           mret (total_score + w, list_append heuristics_found "H6_Abused_TLD")
         else mret (total_score, heuristics_found));
      domain_age ← get_domain_age main_domain;
      '(total_score, heuristics_found) ←
        (if (0 <=? domain_age) && (domain_age <=? 30) then
           w ← dict_getitem heuristic_weights "H7_Domain_Age";
           mret (total_score + w, list_append heuristics_found "H7_Domain_Age")
         else mret (total_score, heuristics_found));
      mret (total_score, final_verdict total_score, heuristics_found, domain_age)
  end.

End Program.

(** ** Vocabulary for the statements *)

(** The age that a live query, issued as the [k]-th one, yields. *)
Definition queried_age (env : Env) (k : nat) (domain : string) : Z :=
  match whois_whois env k domain with
  | Raise _ => -1
  | Return cd =>
      match cd with
      | CdOne (Datetime true micros) | CdList (Datetime true micros :: _) =>
          (utc_now env (S k) - micros) `div` 86400000000
      | _ => -1
      end
  end.

(** What a live query prints after the announcement. *)
Definition queried_output (env : Env) (k : nat) (domain : string) : list string :=
  let failed msg := ["Failed for " +:+ domain +:+ ": " +:+ msg] in
  match whois_whois env k domain with
  | Raise e => failed (exc_msg e)
  | Return cd =>
      if creation_date_truthy cd then
        match cd with
        | CdOne (Datetime false _) | CdList (Datetime false _ :: _) =>
            failed "can't subtract offset-naive and offset-aware datetimes"
        | CdOne (DateText _) | CdList (DateText _ :: _) =>
            failed "unsupported operand type(s) for -: 'datetime.datetime' and 'str'"
        | _ => []
        end
      else []
  end.

(** The line a [print] adds to the output. *)
Definition printed (line : string) (w : World) : World := (print line w).2.

Definition weight_of (h : string) : Z := default 0 (heuristic_weights !! h).

(** Sum of the configured weights of a list of identifiers. *)
Definition weight_sum (found : list string) : Z :=
  foldr (λ h acc, weight_of h + acc) 0 found.

Definition flag (b : bool) (name : string) : list string :=
  if b then [name] else [].

Definition keyword_hit (path : string) : bool :=
  existsb (λ keyword, PyStr.contains keyword (PyStr.lower path))
          (elements suspicious_keywords).

Definition young (age : Z) : bool := (0 <=? age) && (age <=? 30).

(** The identifiers that the heuristics after the length test record, in
    the order of the program. *)
Definition triggered (env : Env) (url hostname path subdomain tld : string)
    (age : Z) : list string :=
  flag (hostname_is_ip env hostname) "H2_IP_Hostname"
  ++ flag (PyStr.has_char "@" url) "H3_At_Symbol"
  ++ flag (keyword_hit path) "H4_Keywords"
  ++ flag (2 <=? PyStr.count "." subdomain) "H5_Subdomains"
  ++ flag (bool_decide (tld ∈ abused_TLD)) "H6_Abused_TLD"
  ++ flag (young age) "H7_Domain_Age".

(** Two environments that answer alike on the text [u] and have the same
    address parser, WHOIS service and clock. *)
Definition same_libraries_at (env env' : Env) (u : string) : Prop :=
  urlparse env u = urlparse env' u
  /\ tld_extract env u = tld_extract env' u
  /\ ip_address env = ip_address env'
  /\ whois_whois env = whois_whois env'
  /\ utc_now env = utc_now env'.

Definition is_error_verdict (verdict : string) : bool :=
  String.eqb verdict "Error-Parsing" || String.eqb verdict "Error-No-Hostname".

(** ** Reference models of the libraries

    The scorer is verified against an arbitrary [Env].  The modules below
    give one concrete environment, used to run the scorer on explicit
    URLs: CPython's [ipaddress.ip_address] and [urllib.parse.urlparse]
    on code points below 256, and [tldextract] over a suffix list of plain
    rules. *)

Module Ipaddress.

Definition is_digit (a : ascii) : bool :=
  let n := nat_of_ascii a in (48 <=? n)%nat && (n <=? 57)%nat.

Definition is_hex_digit (a : ascii) : bool :=
  let n := nat_of_ascii a in
  is_digit a || ((65 <=? n)%nat && (n <=? 70)%nat) || ((97 <=? n)%nat && (n <=? 102)%nat).

Fixpoint decimal_value (acc : Z) (s : string) : Z :=
  match s with
  | EmptyString => acc
  | String a rest => decimal_value (10 * acc + (Z.of_nat (nat_of_ascii a) - 48)) rest
  end.

(** [IPv4Address._parse_octet] succeeds *)
Definition parse_octet (octet_str : string) : bool :=
  PyStr.truthy octet_str
  && PyStr.forallb is_digit octet_str
  && (String.length octet_str <=? 3)%nat
  && negb (negb (String.eqb octet_str "0") && String.prefix "0" octet_str)
  && (decimal_value 0 octet_str <=? 255).

(** [IPv4Address(s)] succeeds *)
Definition is_ipv4 (ip_str : string) : bool :=
  negb (PyStr.has_char "/" ip_str)
  && PyStr.truthy ip_str
  && (let octets := PyStr.split "." ip_str in
      (length octets =? 4)%nat && forallb parse_octet octets).

(** [IPv6Address._parse_hextet] succeeds *)
Definition parse_hextet (hextet_str : string) : bool :=
  PyStr.forallb is_hex_digit hextet_str
  && (String.length hextet_str <=? 4)%nat
  && PyStr.truthy hextet_str.

(** Indices [1 .. len-2] holding an empty part *)
Definition inner_empty (parts : list string) : list nat :=
  List.filter (λ i, match parts !! i with
                    | Some p => (0 <? i)%nat && (i <? length parts - 1)%nat
                                && negb (PyStr.truthy p)
                    | None => false
                    end) (seq 0 (length parts)).

(** [IPv6Address._ip_int_from_string] succeeds *)
Definition ip6_from_string (ip_str : string) : bool :=
  PyStr.truthy ip_str &&
  let parts := PyStr.split ":" ip_str in
  (3 <=? length parts)%nat &&
  match (if PyStr.has_char "." (List.last parts "")
         then if is_ipv4 (List.last parts "")
              then Some (removelast parts ++ ["0"; "0"])
              else None
         else Some parts) with
  | None => false
  | Some parts =>
      (length parts <=? 9)%nat &&
      let first_empty := negb (PyStr.truthy (hd "" parts)) in
      let last_empty := negb (PyStr.truthy (List.last parts "")) in
      match inner_empty parts with
      | _ :: _ :: _ => false
      | [skip_index] =>
          let parts_hi := if first_empty then (skip_index - 1)%nat else skip_index in
          let parts_lo := if last_empty then (length parts - skip_index - 2)%nat
                          else (length parts - skip_index - 1)%nat in
          negb (first_empty && negb (parts_hi =? 0)%nat)
          && negb (last_empty && negb (parts_lo =? 0)%nat)
          && (parts_hi + parts_lo <=? 7)%nat
          && forallb parse_hextet (take parts_hi parts)
          && forallb parse_hextet (drop (length parts - parts_lo) parts)
      | [] =>
          (length parts =? 8)%nat && negb first_empty && negb last_empty
          && forallb parse_hextet parts
      end
  end.

(** [IPv6Address(s)] succeeds: no slash, an optional non-empty scope id
    without a further percent sign. *)
Definition is_ipv6 (addr_str : string) : bool :=
  negb (PyStr.has_char "/" addr_str) &&
  let '(addr, sep, scope_id) := PyStr.partition "%" addr_str in
  negb (sep && (negb (PyStr.truthy scope_id) || PyStr.has_char "%" scope_id))
  && ip6_from_string addr.

Definition ip_address (address : string) : option ip_version :=
  if is_ipv4 address then Some IPv4
  else if is_ipv6 address then Some IPv6
  else None.

End Ipaddress.

Module Urllib.

Record ParseResult := mkParseResult {
  scheme : string;
  netloc : string;
  path : string;
  params : string;
  query : string;
  fragment : string
}.

Definition is_c0_control_or_space (a : ascii) : bool := (nat_of_ascii a <=? 32)%nat.

Definition is_unsafe_byte (a : ascii) : bool :=
  let n := nat_of_ascii a in (n =? 9)%nat || (n =? 13)%nat || (n =? 10)%nat.

Definition is_ascii_alpha (a : ascii) : bool :=
  let n := nat_of_ascii a in
  ((65 <=? n)%nat && (n <=? 90)%nat) || ((97 <=? n)%nat && (n <=? 122)%nat).

Definition is_scheme_char (a : ascii) : bool :=
  is_ascii_alpha a || Ipaddress.is_digit a
  || Ascii.eqb a "+" || Ascii.eqb a "-" || Ascii.eqb a ".".

Definition uses_params : list string :=
  [""; "ftp"; "hdl"; "prospero"; "http"; "imap"; "https"; "shttp"; "rtsp";
   "rtspu"; "sip"; "sips"; "mms"; "sftp"; "tel"].

(** The scheme test of [urlsplit]: a colon at a positive index, a first
    character that is an ASCII letter, only scheme characters before the
    colon. *)
Definition is_scheme (s : string) : bool :=
  match s with
  | String a _ => is_ascii_alpha a && PyStr.forallb is_scheme_char s
  | EmptyString => false
  end.

Definition split_scheme (url : string) : string * string :=
  let '(before, found, after) := PyStr.partition ":" url in
  if found && is_scheme before then (PyStr.lower before, after) else ("", url).

Definition is_netloc_delim (a : ascii) : bool :=
  Ascii.eqb a "/" || Ascii.eqb a "?" || Ascii.eqb a "#".

(** [_splitnetloc(url, 0)] on the text after the two slashes *)
Fixpoint splitnetloc (s : string) : string * string :=
  match s with
  | EmptyString => (EmptyString, EmptyString)
  | String a rest =>
      if is_netloc_delim a then (EmptyString, s)
      else let '(n, r) := splitnetloc rest in (String a n, r)
  end.

(** [re.match(r"\Av[a-fA-F0-9]+\..+\Z", hostname)] *)
Definition is_ipvfuture (hostname : string) : bool :=
  match hostname with
  | String "v" rest =>
      let after_hex := PyStr.lstrip Ipaddress.is_hex_digit rest in
      negb (String.eqb after_hex rest)
      && match after_hex with
         | String "." (String _ _) => true
         | _ => false
         end
  | _ => false
  end.

Definition invalid_ipv6 {A} : outcome A := Raise (Exc ValueError "Invalid IPv6 URL").

Definition check_bracketed_host (hostname : string) : outcome unit :=
  if String.prefix "v" hostname then
    if is_ipvfuture hostname then Return tt
    else Raise (Exc ValueError "IPvFuture address is invalid")
  else
    match Ipaddress.ip_address hostname with
    | None => Raise (Exc ValueError
                ("'" +:+ hostname
                 +:+ "' does not appear to be an IPv4 or IPv6 address"))
    | Some IPv4 => Raise (Exc ValueError "An IPv4 address cannot be in brackets")
    | Some IPv6 => Return tt
    end.

Definition check_bracketed_netloc (netloc : string) : outcome unit :=
  let hostname_and_port := (PyStr.rpartition "@" netloc).2 in
  let '(before_bracket, have_open_br, bracketed) := PyStr.partition "[" hostname_and_port in
  if have_open_br then
    if PyStr.truthy before_bracket then invalid_ipv6
    else
      let '(hostname, _, port) := PyStr.partition "]" bracketed in
      if PyStr.truthy port && negb (String.prefix ":" port) then invalid_ipv6
      else check_bracketed_host hostname
  else
    let '(hostname, _, _) := PyStr.partition ":" hostname_and_port in
    check_bracketed_host hostname.

(** [_splitparams]: the first semicolon after the last slash *)
Definition splitparams (url : string) : string * string :=
  if PyStr.has_char "/" url then
    let '(dir, _, last) := PyStr.rpartition "/" url in
    let '(p, found, prm) := PyStr.partition ";" last in
    if found then (dir +:+ "/" +:+ p, prm) else (url, "")
  else
    let '(p, _, prm) := PyStr.partition ";" url in (p, prm).

(** The network-location step of [urlsplit]: taken when the text
    after the scheme starts with two slashes, and checked for brackets. *)
Definition split_authority (url : string) : outcome (string * string) :=
  if String.prefix "//" url then
    let '(netloc, url) :=
      splitnetloc (String.substring 2 (String.length url - 2) url) in
    let open := PyStr.has_char "[" netloc in
    let close := PyStr.has_char "]" netloc in
    if (open && negb close) || (close && negb open) then invalid_ipv6
    else if open && close then
      match check_bracketed_netloc netloc with
      | Return _ => Return (netloc, url)
      | Raise e => Raise e
      end
    else Return (netloc, url)
  else Return ("", url).

(** Fragment, query and parameters. *)
Definition split_tail (scheme netloc url : string) : ParseResult :=
  let '(url, _, fragment) := PyStr.partition "#" url in
  let '(url, _, query) := PyStr.partition "?" url in
  let '(url, params) :=
    if bool_decide (scheme ∈ uses_params) && PyStr.has_char ";" url
    then splitparams url else (url, "") in
  mkParseResult scheme netloc url params query fragment.

Definition urlparse (url : string) : outcome ParseResult :=
  let url := PyStr.lstrip is_c0_control_or_space url in
  let url := PyStr.remove_char is_unsafe_byte url in
  let '(scheme, url) := split_scheme url in
  match split_authority url with
  | Raise e => Raise e
  | Return (netloc, url) => Return (split_tail scheme netloc url)
  end.

(** The [hostname] property: host part of the network location, lower
    case except for an IPv6 zone. *)
Definition hostname (r : ParseResult) : option string :=
  let hostinfo := (PyStr.rpartition "@" (netloc r)).2 in
  let '(_, have_open_br, bracketed) := PyStr.partition "[" hostinfo in
  let host := if have_open_br then (PyStr.partition "]" bracketed).1.1
              else (PyStr.partition ":" hostinfo).1.1 in
  match host with
  | EmptyString => None
  | _ =>
      let '(h, percent, zone) := PyStr.partition "%" host in
      Some (PyStr.lower h +:+ (if percent then "%" else "") +:+ zone)
  end.

End Urllib.

Module Tldextract.

(** [_schemeless_url]: drop a leading [//] or [scheme://]. *)
Fixpoint find_double_slash (s : string) : option (string * string) :=
  match s with
  | String "/" (String "/" rest) => Some (EmptyString, rest)
  | String a rest =>
      match find_double_slash rest with
      | Some (before, after) => Some (String a before, after)
      | None => None
      end
  | EmptyString => None
  end.

Definition schemeless_url (url : string) : string :=
  match find_double_slash url with
  | None => url
  | Some (EmptyString, after) => after
  | Some (before, after) =>
      let '(sch, colon) :=
        (String.substring 0 (String.length before - 1) before,
         String.substring (String.length before - 1) 1 before) in
      if (String.length before <? 2)%nat
         || negb (String.eqb colon ":")
         || negb (PyStr.forallb Urllib.is_scheme_char sch)
      then url else after
  end.

Definition is_space (a : ascii) : bool :=
  let n := nat_of_ascii a in
  ((9 <=? n)%nat && (n <=? 13)%nat) || ((28 <=? n)%nat && (n <=? 32)%nat)
  || (n =? 133)%nat || (n =? 160)%nat.

(** [lenient_netloc] *)
Definition lenient_netloc (url : string) : string :=
  let s := schemeless_url url in
  let s := (PyStr.partition "/" s).1.1 in
  let s := (PyStr.partition "?" s).1.1 in
  let s := (PyStr.partition "#" s).1.1 in
  let after_userinfo := (PyStr.rpartition "@" s).2 in
  let '(inside, closed, _) := PyStr.partition "]" after_userinfo in
  if String.prefix "[" after_userinfo && closed then inside +:+ "]"
  else
    let hostname := PyStr.strip is_space (PyStr.partition ":" after_userinfo).1.1 in
    PyStr.rstrip (λ a, Ascii.eqb a ".") hostname.

(** One field of [IP_RE]:
    [25[0-5]|2[0-4][0-9]|1[0-9][0-9]|[1-9][0-9]|[0-9]], a decimal number
    from 0 to 255 written without a leading zero. *)
Definition ip_field (f : string) : bool :=
  PyStr.truthy f
  && PyStr.forallb Ipaddress.is_digit f
  && (String.length f <=? 3)%nat
  && negb ((2 <=? String.length f)%nat && String.prefix "0" f)
  && (Ipaddress.decimal_value 0 f <=? 255).

(** [looks_like_ip]: the whole text matches [IP_RE], four such fields
    separated by dots. *)
Definition looks_like_ip (s : string) : bool :=
  let fields := PyStr.split "." s in
  (length fields =? 4)%nat && forallb ip_field fields.

Section Extract.

(** The public suffix list: plain rules only, lower case. *)
Context (suffixes : list string).

(** Index of the first label of the longest listed suffix; the
    number of labels when no suffix is listed. *)
Fixpoint suffix_index (labels : list string) : nat :=
  match labels with
  | [] => 0
  | l :: rest =>
      if bool_decide (PyStr.join "." (map PyStr.lower labels) ∈ suffixes) then 0
      else S (suffix_index rest)
  end.

Definition extract_netloc (netloc : string) : ExtractResult :=
  if (4 <=? String.length netloc)%nat
     && String.prefix "[" netloc
     && String.eqb (String.substring (String.length netloc - 1) 1 netloc) "]"
     && Ipaddress.is_ipv6 (String.substring 1 (String.length netloc - 2) netloc)
  then mkExtractResult "" netloc ""
  else
    let labels := PyStr.split "." netloc in
    let i := suffix_index labels in
    if (i =? length labels)%nat && (length labels =? 4)%nat && looks_like_ip netloc
    then mkExtractResult "" netloc ""
    else
      mkExtractResult
        (if (2 <=? i)%nat then PyStr.join "." (take (i - 1) labels) else "")
        (if (1 <=? i)%nat then nth (i - 1) labels "" else "")
        (if (i =? length labels)%nat then "" else PyStr.join "." (drop i labels)).

Definition extract (url : string) : ExtractResult :=
  extract_netloc (lenient_netloc url).

End Extract.

End Tldextract.

(** ** A reference environment *)

Section ReferenceEnv.

Context (suffixes : list string)
        (whois_service : nat -> string -> outcome creation_date_t)
        (clock : nat -> Z).

Definition reference_env : Env := {|
  urlparse u :=
    match Urllib.urlparse u with
    | Return r => Return (mkParsedUrl (Urllib.hostname r) (Urllib.path r))
    | Raise e => Raise e
    end;
  tld_extract u := Return (Tldextract.extract suffixes u);
  ip_address := Ipaddress.ip_address;
  whois_whois := whois_service;
  utc_now := clock
|}.

End ReferenceEnv.

(** A small suffix list, a WHOIS service that is unreachable, a clock. *)
Definition demo_suffixes : list string := ["com"; "org"; "net"; "xyz"; "top"; "uk"; "co.uk"].

Definition offline_env : Env :=
  reference_env demo_suffixes
    (λ _ _, Raise (Exc WhoisError "connection refused")) (λ _, 0).

Definition empty_world : World := mkWorld ∅ [] [] 0 NoFile.

(** Example URLs. *)
Definition long_xyz_url : string :=
  "http://example.xyz/catalogue/spring/collection/items/0001/overview/page/index.html".

Definition one_subdomain_url : string := "www.example.com".
Definition three_subdomains_url : string := "a.b.c.example.com".
Definition unbalanced_bracket_url : string := "http://[::1".

(** A provider that answers the first query with a creation date and
    fails ever after; the clock stands at day 12. *)
Definition flaky_env : Env :=
  reference_env demo_suffixes
    (λ k _, match k with
            | O => Return (CdList [Datetime true 0; Datetime true 86400000000])
            | S _ => Raise (Exc TimeoutError "timed out")
            end)
    (λ _, 12 * 86400000000 + 5).

(** ** The command loop

    The main block of the program: the results file, the prompts and the
    processing of one input file.  The rows of [smishgrade_results.csv]
    and the number of answered prompts extend the world to a [Session];
    the input files and the failure of opening the results file, if any,
    are parameters. *)

Inductive csv_cell :=
  | CellText (s : string)
  | CellInt (z : Z).

(** A file named at the prompt, as [open(input_file, 'r')] and the
    iteration over its lines present it. *)
Inductive input_file_state :=
  | InputMissing
  | InputLines (lines : list string)
  | InputFails (e : py_exception).

Record Session := mkSession {
  world : World;
  csv_rows : list (list csv_cell);   (* rows of the results file, oldest first *)
  prompts : nat                      (* answered [input] calls *)
}.

Definition SM (A : Type) : Type := Session -> outcome A * Session.

Global Instance SM_ret : MRet SM := λ A a s, (Return a, s).
Global Instance SM_bind : MBind SM := λ A B f m s,
  match m s with
  | (Return a, s') => f a s'
  | (Raise e, s') => (Raise e, s')
  end.

(** A computation on the world, run inside a session. *)
Definition in_world {A} (m : M A) : SM A := λ s,
  let '(r, w') := m (world s) in (r, mkSession w' (csv_rows s) (prompts s)).

Definition say (line : string) : SM unit := in_world (print line).

(** [csv_writer.writerow(row)] *)
Definition writerow (row : list csv_cell) : SM unit := λ s,
  (Return tt, mkSession (world s) (csv_rows s ++ [row]) (prompts s)).

(** [input("> ")], answered *)
Definition answered : SM unit := λ s,
  (Return tt, mkSession (world s) (csv_rows s) (S (prompts s))).

Definition output_csv_file : string := "smishgrade_results.csv".

Definition header_row : list csv_cell :=
  [CellText "URL"; CellText "Ground_Truth"; CellText "Score"; CellText "Verdict";
   CellText "Heuristics_Found"; CellText "Domain_Age_Days"].

(** The row written for one analysed URL. *)
Definition result_row (url ground_truth : string)
    (result : Z * string * list string * Z) : list csv_cell :=
  let '(score, verdict, heuristics, age) := result in
  [CellText url; CellText ground_truth; CellInt score; CellText verdict;
   CellText (PyStr.join "|" heuristics); CellInt age].

(** [str.strip()] with no argument *)
Definition strip_whitespace (s : string) : string :=
  PyStr.strip Tldextract.is_space s.

Section CommandLoop.

Context (env : Env)
        (files : string -> input_file_state)
        (csv_open_error : option py_exception).

(** [[line.strip() for line in text_file if line.strip()]] *)
Definition read_urls (input_file : string) : SM (list string) :=
  match files input_file with
  | InputMissing =>
      λ s, (Raise (Exc FileNotFoundError
                     ("[Errno 2] No such file or directory: '" +:+ input_file +:+ "'")), s)
  | InputFails e => λ s, (Raise e, s)
  | InputLines lines =>
      mret (map strip_whitespace
              (List.filter (λ line, PyStr.truthy (strip_whitespace line)) lines))
  end.

(** The loop over [enumerate(urls_to_test)], from index [n] on. *)
Fixpoint process_urls (total n : nat) (urls : list string) (ground_truth : string)
    : SM unit :=
  match urls with
  | [] => mret tt
  | url :: rest =>
      say ("Processing " +:+ pretty (n + 1)%nat +:+ "/" +:+ pretty total +:+ ": "
           +:+ String.substring 0 70 url);;
      result ← in_world (analyze_url env url);
      writerow (result_row url ground_truth result);;
      process_urls total (S n) rest ground_truth
  end.

(** The inner [try] of the main block with its two handlers. *)
Definition process_file (input_file ground_truth : string) : SM unit := λ s,
  match (urls_to_test ← read_urls input_file;
         say (pretty (length urls_to_test) +:+ " URLs were found.");;
         process_urls (length urls_to_test) 0 urls_to_test ground_truth;;
         say ("Proccessed " +:+ input_file);;
         in_world save_cache) s with
  | (Return u, s') => (Return u, s')
  | (Raise e, s') =>
      if catches FileNotFoundError e then
        say ("File not found: " +:+ input_file
             +:+ ". Please check the name and directory") s'
      else
        say ("Critical error occurred: " +:+ exc_msg e) s'
  end.

(** The [while True] loop, driven by the answers typed at the prompts.
    [None]: the answers are used up and the program waits at a prompt. *)
Fixpoint main_loop (answers : list string) (s : Session)
    : option (outcome unit * Session) :=
  match (say (nl +:+ "==================================================");;
         say "Enter the .txt file to analyze (for example, 'tranco.txt')";;
         say "Or type 'q' to [q]uit") s with
  | (Raise e, s) => Some (Raise e, s)
  | (Return _, s) =>
      match answers with
      | [] => None
      | input_file :: answers =>
          let s := (answered s).2 in
          if String.eqb (PyStr.lower input_file) "q" then Some (Return tt, s)
          else
            let s := (say "What is the ground truth for this file (is it 'malicious' or 'benign')?" s).2 in
            match answers with
            | [] => None
            | answer :: answers =>
                let s := (answered s).2 in
                let ground_truth := PyStr.lower answer in
                if negb (bool_decide (ground_truth ∈ ["malicious"; "benign"])) then
                  main_loop answers
                    (say "Invalid entry. Please type 'malicious' or 'benign'." s).2
                else
                  match (say (nl +:+ " Starting analysis on '" +:+ input_file +:+ "'");;
                         process_file input_file ground_truth) s with
                  | (Raise e, s) => Some (Raise e, s)
                  | (Return _, s) => main_loop answers s
                  end
            end
      end
  end.

(** The [with open(output_csv_file, 'a', ...)] block: the header goes to
    an empty file, then the loop runs. *)
Definition with_results_file (answers : list string) (s : Session)
    : option (outcome unit * Session) :=
  match csv_open_error with
  | Some e => Some (Raise e, s)
  | None =>
      match csv_rows s with
      | [] =>
          match (say ("Writing headers to new file: " +:+ output_csv_file);;
                 writerow header_row) s with
          | (Raise e, s) => Some (Raise e, s)
          | (Return _, s) => main_loop answers s
          end
      | _ :: _ => main_loop answers s
      end
  end.

(** The main block.  An exception of [check_cache] is not caught: the
    program ends with it.  Past that point the [finally] clause runs on
    every exit. *)
Definition main (answers : list string) (s : Session)
    : option (outcome unit * Session) :=
  match (say "SmishGrade Heuristic Analyzer";; in_world check_cache) s with
  | (Raise e, s) => Some (Raise e, s)
  | (Return _, s) =>
      match with_results_file answers s with
      | None => None
      | Some (r, s) =>
          let s := match r with
                   | Raise error_message =>
                       (say ("An error occurred outside the loop: "
                             +:+ exc_msg error_message) s).2
                   | Return _ => s
                   end in
          Some ((in_world save_cache;;
                 say (nl +:+ " Analysis Complete. Exiting.")) s)
      end
  end.

End CommandLoop.

(** ** Vocabulary for the further properties *)

(** The normalised URL parses and has a hostname: the [try] block of
    [analyze_url] falls through to the heuristics. *)
Definition parses (env : Env) (url : string) : bool :=
  match urlparse env (url_to_parse url), tld_extract env (url_to_parse url) with
  | Return p, Return _ =>
      match pr_hostname p with
      | Some (String _ _) => true
      | _ => false
      end
  | _, _ => false
  end.

(** The identifiers in the order in which the scorer can record them. *)
Definition recording_order : list string :=
  ["H2_IP_Hostname"; "H3_At_Symbol"; "H4_Keywords"; "H5_Subdomains";
   "H6_Abused_TLD"; "H7_Domain_Age"].

(** A parsed URL of more than 75 characters: the scorer raises on it. *)
Definition crashes (env : Env) (url : string) : bool :=
  parses env url && (75 <? PyStr.len url).

(** The exception of the length heuristic. *)
Definition attribute_error : py_exception :=
  Exc AttributeError "'dict' object has no attribute 'append'".

(** A row written for some analysed URL under the ground truth [gt]. *)
Definition is_result_row (env : Env) (gt : string) (row : list csv_cell) : Prop :=
  exists url result w0 w1,
    analyze_url env url w0 = (Return result, w1)
    /\ row = result_row url gt result.

(** A row written for some analysed URL under one of the two accepted
    ground truths. *)
Definition labelled_row (env : Env) (row : list csv_cell) : Prop :=
  exists gt, (gt = "malicious" \/ gt = "benign") /\ is_result_row env gt row.

(** The non-blank lines of an input file, stripped. *)
Definition urls_of_lines (lines : list string) : list string :=
  map strip_whitespace
    (List.filter (λ line, PyStr.truthy (strip_whitespace line)) lines).

(** Input files for the examples, and a session that starts from
    nothing. *)
Definition demo_files (name : string) : input_file_state :=
  if String.eqb name "good.txt" then
    InputLines ["  www.example.com " +:+ nl; nl; "http://192.168.1.1/login" +:+ nl]
  else if String.eqb name "mixed.txt" then
    InputLines ["www.example.com" +:+ nl; long_xyz_url +:+ nl; "a.b.c.example.com"]
  else if String.eqb name "locked.txt" then
    InputFails (Exc PermissionError "[Errno 13] Permission denied: 'locked.txt'")
  else InputMissing.

Definition new_session : Session := mkSession empty_world [] 0.

(** A disk on which the cache file can be opened for writing and
    written. *)
Definition openable (d : disk_state) : Prop := write_failure d = None.

(** The cache file loads: [check_cache] returns. *)
Definition loads (d : disk_state) : bool :=
  match disk_read d with
  | Return (JsonDict _) => true
  | Return (JsonNoLen _) => false
  | Raise e => catches FileNotFoundError e || catches JSONDecodeError e
  end.

(** Cache files for the examples: one that may not be read, one that may
    be read but not written. *)
Definition permission_denied : py_exception :=
  Exc PermissionError "[Errno 13] Permission denied: 'whois_cache.json'".

Definition read_only_disk : disk_state :=
  Unwritable permission_denied (JsonFile {[ "example.org" := 4000 ]}).


(** * Properties *)

(** ** The monad *)

Lemma bind_run {A B} (m : M A) (f : A -> M B) (w : World) :
  (m ≫= f) w = match m w with
               | (Return a, w') => f a w'
               | (Raise e, w') => (Raise e, w')
               end.
Proof. reflexivity. Qed.

Lemma ret_run {A} (a : A) (w : World) : (mret a : M A) w = (Return a, w).
Proof. reflexivity. Qed.

Ltac run_monad :=
  cbv beta iota zeta delta
    [mbind M_bind mret M_ret print get_cache set_cache cache_setitem time_sleep
     raise lift try_except];
  cbn [whois_cache stdout whois_log sleeps disk].

(** ** The age cache *)

Section AgeCache.

Context (env : Env).

Lemma get_domain_age_hit domain w age :
  whois_cache w !! domain = Some age ->
  get_domain_age env domain w = (Return age, w).
Proof.
  intros Hhit. unfold get_domain_age. run_monad. now rewrite Hhit.
Qed.

Lemma get_domain_age_miss domain w :
  whois_cache w !! domain = None ->
  let k := length (whois_log w) in
  get_domain_age env domain w =
    (Return (queried_age env k domain),
     mkWorld (<[domain := queried_age env k domain]> (whois_cache w))
             (stdout w ++ [nl +:+ " Looking up " +:+ domain] ++ queried_output env k domain)
             (whois_log w ++ [domain])
             (S (sleeps w))
             (disk w)).
Proof.
  intros Hmiss k. unfold get_domain_age, queried_age, queried_output,
    whois_query, datetime_now, days_since.
  run_monad. rewrite Hmiss. fold k.
  destruct (whois_whois env k domain) as [cd|e].
  - destruct cd as [|[[|] micros|[|c s]]|[|[[|] micros|s] l]];
      cbn [creation_date_truthy PyStr.truthy]; run_monad;
      rewrite ?length_app; cbn [length];
      rewrite ?Nat.add_1_r, <- ?app_assoc, ?app_nil_r;
      reflexivity.
  - run_monad. rewrite <- app_assoc. reflexivity.
Qed.

Lemma get_domain_age_returns domain w :
  exists age w', get_domain_age env domain w = (Return age, w')
                 /\ whois_cache w' !! domain = Some age.
Proof.
  destruct (whois_cache w !! domain) as [age|] eqn:Hc.
  - exists age, w. split; [now apply get_domain_age_hit | exact Hc].
  - eexists _, _. split; [now apply get_domain_age_miss |].
    cbn. apply lookup_insert_eq.
Qed.

End AgeCache.

(** C6.  A domain already in the age cache, sentinel entries included, is
    answered with the stored value and leaves the world untouched, so no
    external query is issued.  Any lookup returns an age that is stored
    under the domain by the time it returns; repeating the lookup gives the
    same age without any further effect, and the two lookups together
    query the provider at most once. *)
Theorem age_cache_memoises (env : Env) (domain : string) (w : World) :
  (forall age, whois_cache w !! domain = Some age ->
     get_domain_age env domain w = (Return age, w))
  /\ exists age w1,
       get_domain_age env domain w = (Return age, w1)
       /\ whois_cache w1 !! domain = Some age
       /\ get_domain_age env domain w1 = (Return age, w1)
       /\ (length (whois_log w1) <= length (whois_log w) + 1)%nat
       /\ (whois_cache w !! domain = None -> whois_log w1 = whois_log w ++ [domain]).
Proof.
  split; [intros age; apply get_domain_age_hit |].
  destruct (whois_cache w !! domain) as [age|] eqn:Hc.
  - exists age, w. repeat split; auto using get_domain_age_hit; [lia | discriminate].
  - eexists _, _. split; [now apply get_domain_age_miss |].
    cbn [whois_cache whois_log].
    assert (Hstored : <[domain := queried_age env (length (whois_log w)) domain]>
                        (whois_cache w) !! domain
                      = Some (queried_age env (length (whois_log w)) domain))
      by apply lookup_insert_eq.
    repeat split; auto.
    + now apply get_domain_age_hit.
    + rewrite length_app. cbn. lia.
Qed.

Lemma age_cache_memoises_witness :
  get_domain_age flaky_env "example.com"
    (mkWorld {[ "example.com" := -1 ]} [] [] 0 NoFile)
  = (Return (-1), mkWorld {[ "example.com" := -1 ]} [] [] 0 NoFile)
  /\ exists w1,
       get_domain_age flaky_env "example.com" empty_world = (Return 12, w1)
       /\ get_domain_age flaky_env "example.com" w1 = (Return 12, w1)
       /\ whois_log w1 = ["example.com"].
Proof.
  split.
  - apply (proj1 (age_cache_memoises flaky_env "example.com"
                    (mkWorld {[ "example.com" := -1 ]} [] [] 0 NoFile))).
    reflexivity.
  - destruct (proj2 (age_cache_memoises flaky_env "example.com" empty_world))
      as (age & w1 & Hfirst & _ & Hsecond & _ & Hlog).
    exists w1.
    assert (Hage : age = 12).
    { rewrite (get_domain_age_miss flaky_env "example.com" empty_world eq_refl) in Hfirst.
      injection Hfirst as Hage _. symmetry. exact Hage. }
    subst age. repeat split; auto.
Defined.

(** C7.  On a miss, when the provider raises an error or reports no
    creation date, the lookup stores the sentinel [-1] under the domain
    and returns it; and whatever the provider does, a lookup returns an
    age and never raises. *)
Theorem lookup_failure_is_sentinel (env : Env) (domain : string) (w : World) :
  (whois_cache w !! domain = None ->
   ((exists e, whois_whois env (length (whois_log w)) domain = Raise e)
    \/ (exists cd, whois_whois env (length (whois_log w)) domain = Return cd
                   /\ creation_date_truthy cd = false)) ->
   exists w', get_domain_age env domain w = (Return (-1), w')
              /\ whois_cache w' = <[domain := -1]> (whois_cache w))
  /\ exists age w', get_domain_age env domain w = (Return age, w').
Proof.
  split.
  - intros Hmiss Hfail.
    assert (Hage : queried_age env (length (whois_log w)) domain = -1).
    { unfold queried_age.
      destruct Hfail as [[e ->] | (cd & -> & Hfalsy)]; [reflexivity |].
      destruct cd as [|[[|] micros|[|c s]]|[|d l]]; try discriminate; reflexivity. }
    rewrite (get_domain_age_miss env domain w Hmiss). cbv zeta. rewrite Hage.
    eexists. split; reflexivity.
  - destruct (get_domain_age_returns env domain w) as (age & w' & H & _). eauto.
Qed.

Lemma lookup_failure_is_sentinel_witness :
  exists w', get_domain_age offline_env "example.com" empty_world = (Return (-1), w')
             /\ whois_cache w' = <[ "example.com" := -1 ]> ∅.
Proof.
  apply (proj1 (lookup_failure_is_sentinel offline_env "example.com" empty_world)).
  - reflexivity.
  - left. eexists. reflexivity.
Defined.

(** ** Persistence of the cache *)

(** [check_cache], by what reading the file gives. *)
Lemma check_cache_run (w : World) :
  check_cache w =
    match disk_read (disk w) with
    | Return (JsonDict d) =>
        (Return tt,
         mkWorld d
           (stdout w ++ ["Found " +:+ pretty (size d) +:+ " entries from "
                         +:+ whois_cache_file +:+ "."])
           (whois_log w) (sleeps w) (disk w))
    | Return (JsonNoLen v) =>
        (Raise (Exc TypeError
                  ("object of type '" +:+ type_name v +:+ "' has no len()")), w)
    | Raise e =>
        if catches FileNotFoundError e then
          (Return tt,
           mkWorld ∅ (stdout w ++ ["No cache file found. Starting a new one."])
             (whois_log w) (sleeps w) (disk w))
        else if catches JSONDecodeError e then
          (Return tt,
           mkWorld ∅ (stdout w ++ ["Cache file is broken. Starting a new one."])
             (whois_log w) (sleeps w) (disk w))
        else (Raise e, w)
    end.
Proof.
  unfold check_cache, read_cache_file. run_monad.
  destruct (disk_read (disk w)) as [[d|v]|e]; run_monad; reflexivity.
Qed.

(** [save_cache], by what writing the file gives: it returns in every
    world, and a failure is printed. *)
Lemma save_cache_run (w : World) :
  save_cache w =
    match write_failure (disk w) with
    | None =>
        (Return tt,
         mkWorld (whois_cache w)
           (stdout w ++ [nl +:+ "Cache saved. There are "
                         +:+ pretty (size (whois_cache w)) +:+ " entries"])
           (whois_log w) (sleeps w) (JsonFile (whois_cache w)))
    | Some (e, after) =>
        (Return tt,
         mkWorld (whois_cache w)
           (stdout w ++ ["Could not save cache: " +:+ exc_msg e])
           (whois_log w) (sleeps w) after)
    end.
Proof.
  unfold save_cache, write_cache_file, disk_write. run_monad.
  destruct (write_failure (disk w)) as [[e after]|]; reflexivity.
Qed.

(** A failed write leaves a disk on which the next write fails alike, a
    successful one a disk that can be written again. *)
Lemma write_failure_stable (c : gmap string Z) (d : disk_state) :
  write_failure (disk_write c d).2 = write_failure d.
Proof. destruct d; reflexivity. Qed.

(** The two load failures that [check_cache] handles: a missing file and
    text that the JSON decoder rejects give an empty cache and one
    printed line. *)
Lemma handled_load_failures (w : World) :
  disk w = NoFile \/ (exists text, disk w = Garbage text) ->
  exists line,
    check_cache w
    = (Return tt, mkWorld ∅ (stdout w ++ [line]) (whois_log w) (sleeps w) (disk w)).
Proof.
  intros [Hd | [text Hd]]; rewrite check_cache_run, Hd; eexists; reflexivity.
Qed.

(** Load failures other than the two handled ones leave [check_cache]
    through the exception. *)
Lemma check_cache_propagates (w : World) :
  (disk w = Undecodable ->
   check_cache w
   = (Raise (Exc UnicodeDecodeError
               "'utf-8' codec can't decode byte 0xff in position 0: invalid start byte"),
      w))
  /\ (forall e, disk w = Broken e ->
       catches FileNotFoundError e = false ->
       catches JSONDecodeError e = false ->
       check_cache w = (Raise e, w)).
Proof.
  split.
  - intros Hd. now rewrite check_cache_run, Hd.
  - intros e Hd H1 H2. rewrite check_cache_run, Hd. cbn [disk_read].
    now rewrite H1, H2.
Qed.

(** Saving and loading again gives back the cache that was saved. *)
Lemma save_then_load (w : World) :
  openable (disk w) ->
  whois_cache (check_cache (save_cache w).2).2 = whois_cache w.
Proof.
  intros Hd. rewrite save_cache_run, Hd. now rewrite check_cache_run.
Qed.

(** C8 (a defect of the code).  Loading is not best-effort.  Of the
    failures of reading [whois_cache.json], [check_cache] handles the
    missing file and the text that the JSON decoder rejects; a file of
    bytes that are not text, a file that holds [null] or a number, and a
    file that may not be read make it raise.  The main block calls it
    outside every [try]: the program ends with that exception right after
    the banner, whatever is typed, with no row written and no cache
    saved.  [save_cache], its sibling, catches every exception: on the
    file that may not be opened it prints the failure and returns. *)
Theorem unhandled_load_failure_is_fatal (env : Env)
    (files : string -> input_file_state) (csv_open_error : option py_exception)
    (answers : list string) (cache : gmap string Z) (out log : list string)
    (slept : nat) (rows : list (list csv_cell)) (asked : nat) :
  Forall (λ '(d, e),
            let w := mkWorld cache out log slept d in
            check_cache w = (Raise e, w)
            /\ main env files csv_open_error answers (mkSession w rows asked)
               = Some (Raise e,
                       mkSession (printed "SmishGrade Heuristic Analyzer" w)
                                 rows asked))
    [(Undecodable,
      Exc UnicodeDecodeError
        "'utf-8' codec can't decode byte 0xff in position 0: invalid start byte");
     (JsonScalar JsonNull, Exc TypeError "object of type 'NoneType' has no len()");
     (JsonScalar JsonInt, Exc TypeError "object of type 'int' has no len()");
     (Broken permission_denied, permission_denied);
     (Unwritable permission_denied (JsonScalar JsonNull),
      Exc TypeError "object of type 'NoneType' has no len()")]
  /\ save_cache (mkWorld cache out log slept (Broken permission_denied))
     = (Return tt,
        mkWorld cache
          (out ++ ["Could not save cache: [Errno 13] Permission denied: 'whois_cache.json'"])
          log slept (Broken permission_denied)).
Proof.
  split; [| reflexivity].
  repeat (constructor; [split; reflexivity |]). constructor.
Qed.

(** ** The scorer *)

Lemma weight_H1 : heuristic_weights !! "H1_Length" = Some 5.
Proof. reflexivity. Qed.
Lemma weight_H2 : heuristic_weights !! "H2_IP_Hostname" = Some 40.
Proof. reflexivity. Qed.
Lemma weight_H3 : heuristic_weights !! "H3_At_Symbol" = Some 10.
Proof. reflexivity. Qed.
Lemma weight_H4 : heuristic_weights !! "H4_Keywords" = Some 5.
Proof. reflexivity. Qed.
Lemma weight_H5 : heuristic_weights !! "H5_Subdomains" = Some 15.
Proof. reflexivity. Qed.
Lemma weight_H6 : heuristic_weights !! "H6_Abused_TLD" = Some 20.
Proof. reflexivity. Qed.
Lemma weight_H7 : heuristic_weights !! "H7_Domain_Age" = Some 50.
Proof. reflexivity. Qed.

Ltac run_scorer :=
  unfold dict_getitem, dict_append;
  rewrite ?weight_H1, ?weight_H2, ?weight_H3, ?weight_H4, ?weight_H5, ?weight_H6,
    ?weight_H7;
  run_monad.

Section Scorer.

Context (env : Env).

(** The keyword loop adds the weight once when some keyword occurs in
    the lower-cased path, whatever the order of iteration. *)
Lemma keyword_loop_run keywords path total_score heuristics_found w :
  keyword_loop keywords path total_score heuristics_found w =
    (Return (if existsb (λ k, PyStr.contains k (PyStr.lower path)) keywords
             then (total_score + 5, heuristics_found ++ ["H4_Keywords"])
             else (total_score, heuristics_found)), w).
Proof.
  induction keywords as [|k rest IH]; cbn [keyword_loop existsb]; [reflexivity |].
  destruct (PyStr.contains k (PyStr.lower path)); cbn [orb]; [| exact IH].
  run_scorer. reflexivity.
Qed.

Lemma parse_features_run url w :
  parse_features env url w =
    match urlparse env (url_to_parse url), tld_extract env (url_to_parse url) with
    | Raise e, _ | Return _, Raise e =>
        (Return (inl (0, "Error-Parsing", [], -1)),
         printed ("Failed to parse " +:+ url +:+ ": " +:+ exc_msg e) w)
    | Return p, Return x =>
        match pr_hostname p with
        | None | Some EmptyString =>
            (Return (inl (0, "Error-No-Hostname", [], -1)), w)
        | Some hostname =>
            (Return (inr (hostname, pr_path p, top_domain_under_public_suffix x,
                          er_subdomain x, "." +:+ er_suffix x)), w)
        end
    end.
Proof.
  unfold parse_features, printed. run_monad.
  destruct (urlparse env (url_to_parse url)) as [p|e]; [| reflexivity].
  destruct (tld_extract env (url_to_parse url)) as [x|e]; [| reflexivity].
  destruct (pr_hostname p) as [[|c h]|]; reflexivity.
Qed.

(** A URL of more than 75 characters that parses with a hostname makes
    the scorer raise [AttributeError] at the length heuristic. *)
Lemma analyze_url_long url w feats w1 :
  parse_features env url w = (Return (inr feats), w1) ->
  75 < PyStr.len url ->
  analyze_url env url w =
    (Raise (Exc AttributeError "'dict' object has no attribute 'append'"), w1).
Proof.
  intros Hparse Hlen. unfold analyze_url. run_monad. rewrite Hparse.
  destruct feats as [[[[hostname path] main_domain] subdomain] tld].
  apply Z.ltb_lt in Hlen. rewrite Hlen. run_scorer. reflexivity.
Qed.

(** A shorter URL that parses with a hostname is scored by the six
    remaining heuristics. *)
Lemma analyze_url_short url w hostname path main_domain subdomain tld w1 age w2 :
  parse_features env url w
    = (Return (inr (hostname, path, main_domain, subdomain, tld)), w1) ->
  PyStr.len url <= 75 ->
  get_domain_age env main_domain w1 = (Return age, w2) ->
  let found := triggered env url hostname path subdomain tld age in
  analyze_url env url w
    = (Return (weight_sum found, final_verdict (weight_sum found), found, age), w2).
Proof.
  intros Hparse Hlen Hage found. subst found.
  unfold analyze_url, triggered, keyword_hit, young. run_monad. rewrite Hparse.
  apply Z.ltb_ge in Hlen. rewrite Hlen. run_monad.
  destruct (hostname_is_ip env hostname); run_scorer;
  destruct (PyStr.has_char "@" url); run_scorer;
  rewrite keyword_loop_run;
  destruct (existsb _ (elements suspicious_keywords)); run_scorer;
  destruct (2 <=? PyStr.count "." subdomain); run_scorer;
  destruct (bool_decide (tld ∈ abused_TLD)); run_scorer;
  rewrite Hage;
  destruct ((0 <=? age) && (age <=? 30)); run_scorer;
  reflexivity.
Qed.

End Scorer.

(** A URL of at most 75 characters that parses and meets none of the
    conditions of the remaining heuristics scores 0 and is Benign. *)
Lemma quiet_url_is_benign env url w hostname path main_domain subdomain tld age w2 :
  parse_features env url w
    = (Return (inr (hostname, path, main_domain, subdomain, tld)), w) ->
  PyStr.len url <= 75 ->
  get_domain_age env main_domain w = (Return age, w2) ->
  triggered env url hostname path subdomain tld age = [] ->
  analyze_url env url w = (Return (0, "Benign", [], age), w2).
Proof.
  intros Hparse Hlen Hage Hquiet.
  rewrite (analyze_url_short env url w _ _ _ _ _ w _ _ Hparse Hlen Hage).
  cbv zeta. now rewrite Hquiet.
Qed.

Lemma triggered_NoDup env url hostname path subdomain tld age :
  NoDup (triggered env url hostname path subdomain tld age).
Proof.
  unfold triggered, flag.
  destruct (hostname_is_ip env hostname), (PyStr.has_char "@" url), (keyword_hit path),
    (2 <=? PyStr.count "." subdomain), (bool_decide (tld ∈ abused_TLD)), (young age);
    cbn [app]; apply (bool_decide_unpack _); vm_compute; exact I.
Qed.

Lemma triggered_sum_nonneg env url hostname path subdomain tld age :
  0 <= weight_sum (triggered env url hostname path subdomain tld age).
Proof.
  unfold triggered, flag.
  destruct (hostname_is_ip env hostname), (PyStr.has_char "@" url), (keyword_hit path),
    (2 <=? PyStr.count "." subdomain), (bool_decide (tld ∈ abused_TLD)), (young age);
    vm_compute; discriminate.
Qed.

Lemma parse_features_error env url w early w1 :
  parse_features env url w = (Return (inl early), w1) ->
  (early = (0, "Error-Parsing", [], -1) \/ early = (0, "Error-No-Hostname", [], -1))
  /\ whois_cache w1 = whois_cache w /\ whois_log w1 = whois_log w.
Proof.
  rewrite parse_features_run.
  destruct (urlparse env (url_to_parse url)) as [p|e];
    [destruct (tld_extract env (url_to_parse url)) as [x|e];
       [destruct (pr_hostname p) as [[|c h]|] |] |];
    intros [= <- <-]; cbn; auto.
Qed.

Lemma parse_features_ok env url w feats w1 :
  parse_features env url w = (Return (inr feats), w1) ->
  w1 = w
  /\ exists p x hostname,
       urlparse env (url_to_parse url) = Return p
       /\ tld_extract env (url_to_parse url) = Return x
       /\ pr_hostname p = Some hostname /\ hostname <> ""
       /\ feats = (hostname, pr_path p, top_domain_under_public_suffix x,
                   er_subdomain x, "." +:+ er_suffix x).
Proof.
  rewrite parse_features_run.
  destruct (urlparse env (url_to_parse url)) as [p|e]; [| discriminate].
  destruct (tld_extract env (url_to_parse url)) as [x|e]; [| discriminate].
  destruct (pr_hostname p) as [[|c h]|] eqn:Hh; try discriminate.
  intros [= <- <-]. split; [reflexivity |].
  exists p, x, (String c h). repeat split; auto.
Qed.

Lemma parse_features_returns env url w :
  exists r w1, parse_features env url w = (Return r, w1).
Proof.
  rewrite parse_features_run.
  destruct (urlparse env (url_to_parse url)) as [p|e];
    [destruct (tld_extract env (url_to_parse url)) as [x|e];
       [destruct (pr_hostname p) as [[|c h]|] |] |];
    eauto.
Qed.

(** The early [return] of the [try] block is the result. *)
Lemma analyze_url_early (env : Env) (url : string) (w : World) early w1 :
  parse_features env url w = (Return (inl early), w1) ->
  analyze_url env url w = (Return early, w1).
Proof. intros H. unfold analyze_url. run_monad. now rewrite H. Qed.

(** Every result that [analyze_url] returns is either a parse-error
    record or the score of a parsed URL of at most 75 characters. *)
Lemma analyze_url_returned env url w score verdict found age w' :
  analyze_url env url w = (Return (score, verdict, found, age), w') ->
  (is_error_verdict verdict = true /\ score = 0 /\ found = [] /\ age = -1)
  \/ (exists p x hostname,
        urlparse env (url_to_parse url) = Return p
        /\ tld_extract env (url_to_parse url) = Return x
        /\ pr_hostname p = Some hostname /\ hostname <> ""
        /\ PyStr.len url <= 75
        /\ get_domain_age env (top_domain_under_public_suffix x) w = (Return age, w')
        /\ found = triggered env url hostname (pr_path p) (er_subdomain x)
                     ("." +:+ er_suffix x) age
        /\ score = weight_sum found
        /\ verdict = final_verdict score).
Proof.
  intros Hrun.
  destruct (parse_features_returns env url w) as ([early|feats] & w1 & Hparse).
  - left. destruct (parse_features_error _ _ _ _ _ Hparse) as [Hearly _].
    assert (Hearly' : analyze_url env url w = (Return early, w1))
      by (unfold analyze_url; run_monad; now rewrite Hparse).
    rewrite Hearly' in Hrun. injection Hrun as -> _.
    destruct Hearly as [[= -> -> -> ->] | [= -> -> -> ->]]; auto.
  - right. destruct (Z_lt_le_dec 75 (PyStr.len url)) as [Hlong|Hshort].
    + rewrite (analyze_url_long env url w feats w1 Hparse Hlong) in Hrun. discriminate.
    + destruct (parse_features_ok _ _ _ _ _ Hparse)
        as (-> & p & x & hostname & Hp & Hx & Hh & Hne & ->).
      destruct (get_domain_age_returns env (top_domain_under_public_suffix x) w)
        as (age' & w2 & Hage & _).
      rewrite (analyze_url_short env url w _ _ _ _ _ w _ _ Hparse Hshort Hage) in Hrun.
      injection Hrun as <- <- <- <- <-.
      exists p, x, hostname. repeat split; auto.
Qed.

Lemma final_verdict_not_error score : is_error_verdict (final_verdict score) = false.
Proof.
  unfold final_verdict.
  destruct (malicious_threshold <=? score), (suspicious_threshold <=? score); reflexivity.
Qed.

(** C1.  The length heuristic, evaluated on a URL of 82 characters under
    [.xyz] that meets no other heuristic condition: the scorer does not
    return [H1_weight + H6_weight]; it raises [AttributeError] when it
    tries to record the identifier. *)
Theorem long_xyz_url_raises :
  75 < PyStr.len long_xyz_url
  /\ (exists p x hostname,
        urlparse offline_env (url_to_parse long_xyz_url) = Return p
        /\ tld_extract offline_env (url_to_parse long_xyz_url) = Return x
        /\ pr_hostname p = Some hostname
        /\ "." +:+ er_suffix x = ".xyz"
        /\ triggered offline_env long_xyz_url hostname (pr_path p) (er_subdomain x)
             ("." +:+ er_suffix x) (-1) = ["H6_Abused_TLD"])
  /\ analyze_url offline_env long_xyz_url empty_world
     = (Raise (Exc AttributeError "'dict' object has no attribute 'append'"), empty_world).
Proof.
  split; [reflexivity |]. split.
  - exists (mkParsedUrl (Some "example.xyz")
              "/catalogue/spring/collection/items/0001/overview/page/index.html"),
           (mkExtractResult "" "example" "xyz"), "example.xyz".
    split; [vm_compute; reflexivity |]. split; [vm_compute; reflexivity |].
    split; [reflexivity |]. split; [reflexivity |]. vm_compute. reflexivity.
  - apply (analyze_url_long offline_env long_xyz_url empty_world
             ("example.xyz",
              "/catalogue/spring/collection/items/0001/overview/page/index.html",
              "example.xyz", "", ".xyz"));
      [vm_compute; reflexivity | reflexivity].
Qed.

(** C9.  Whenever [analyze_url] returns, the score is the sum of the
    configured weights of the identifiers in the returned list, and no
    identifier occurs twice in that list. *)
Theorem score_is_sum_of_found (env : Env) (url : string) (w w' : World)
    (score : Z) (verdict : string) (found : list string) (age : Z) :
  analyze_url env url w = (Return (score, verdict, found, age), w') ->
  is_error_verdict verdict = false ->
  score = weight_sum found /\ NoDup found.
Proof.
  intros Hrun Hok.
  destruct (analyze_url_returned _ _ _ _ _ _ _ _ Hrun)
    as [(Herr & _) | (p & x & hostname & _ & _ & _ & _ & _ & _ & -> & -> & _)];
    [congruence |].
  split; [reflexivity | apply triggered_NoDup].
Qed.

Lemma score_is_sum_of_found_witness :
  (analyze_url offline_env "http://192.168.1.1/login" empty_world).1
  = Return (45, "Malicious", ["H2_IP_Hostname"; "H4_Keywords"], -1)
  /\ 45 = weight_sum ["H2_IP_Hostname"; "H4_Keywords"]
  /\ NoDup ["H2_IP_Hostname"; "H4_Keywords"].
Proof.
  split; [vm_compute; reflexivity |].
  apply (score_is_sum_of_found offline_env "http://192.168.1.1/login" empty_world
           (analyze_url offline_env "http://192.168.1.1/login" empty_world).2
           45 "Malicious" ["H2_IP_Hostname"; "H4_Keywords"] (-1));
    vm_compute; reflexivity.
Defined.

Lemma weight_sum_app (l1 l2 : list string) :
  weight_sum (l1 ++ l2) = weight_sum l1 + weight_sum l2.
Proof.
  induction l1 as [|h l1 IH]; cbn [app weight_sum foldr]; [reflexivity |].
  fold (weight_sum (l1 ++ l2)). fold (weight_sum l1). lia.
Qed.

Lemma young_spec (age : Z) : young age = true <-> 0 <= age <= 30.
Proof. unfold young. rewrite andb_true_iff, !Z.leb_le. reflexivity. Qed.

(** C2.  In every result that [analyze_url] returns, the domain-age
    heuristic contributes exactly when the returned age lies in [0, 30]:
    the list is some H7-free list followed by the H7 identifier and the
    score is that list's weight plus the H7 weight; otherwise, and in
    particular for the unknown age [-1], the identifier is absent and
    nothing is added.  For a parsed URL the age is the one the cache
    lookup returns for the registered domain. *)
Theorem young_domain_heuristic (env : Env) (url : string) (w w' : World)
    (score : Z) (verdict : string) (found : list string) (age : Z) :
  analyze_url env url w = (Return (score, verdict, found, age), w') ->
  (exists found0,
     ("H7_Domain_Age" ∉ found0)
     /\ (0 <= age <= 30 ->
         found = found0 ++ ["H7_Domain_Age"]
         /\ score = weight_sum found0 + weight_of "H7_Domain_Age")
     /\ (~ (0 <= age <= 30) -> found = found0 /\ score = weight_sum found0))
  /\ ("H7_Domain_Age" ∈ found <-> 0 <= age <= 30)
  /\ (age = -1 -> "H7_Domain_Age" ∉ found)
  /\ (is_error_verdict verdict = false ->
      exists x, tld_extract env (url_to_parse url) = Return x
                /\ get_domain_age env (top_domain_under_public_suffix x) w
                   = (Return age, w')).
Proof.
  intros Hrun.
  destruct (analyze_url_returned _ _ _ _ _ _ _ _ Hrun)
    as [(Herr & -> & -> & ->)
       | (p & x & hostname & _ & Hx & _ & _ & _ & Hage & Hfound & -> & ->)].
  - split; [exists []; repeat split; try lia; apply not_elem_of_nil |].
    split; [| split]; [| | congruence].
    + split; [intros H; now apply elem_of_nil in H | lia].
    + intros _. apply not_elem_of_nil.
  - assert (Hpre : exists found0, ("H7_Domain_Age" ∉ found0)
                     /\ found = found0 ++ flag (young age) "H7_Domain_Age").
    { subst found. unfold triggered. rewrite !app_assoc. eexists. split; [| reflexivity].
      unfold flag.
      destruct (hostname_is_ip env hostname), (PyStr.has_char "@" url),
        (keyword_hit (pr_path p)), (2 <=? PyStr.count "." (er_subdomain x)),
        (bool_decide ("." +:+ er_suffix x ∈ abused_TLD));
        cbn [app]; apply (bool_decide_unpack _); vm_compute; exact I. }
    destruct Hpre as (found0 & Hfree & Hsplit). clear Hfound.
    pose proof (young_spec age) as Hy. unfold flag in Hsplit.
    assert (Hlookup : is_error_verdict (final_verdict (weight_sum found)) = false ->
              exists x0, tld_extract env (url_to_parse url) = Return x0
                         /\ get_domain_age env (top_domain_under_public_suffix x0) w
                            = (Return age, w')) by eauto.
    destruct (young age); rewrite Hsplit in *; rewrite ?app_nil_r in *.
    + assert (Hin : 0 <= age <= 30) by now apply Hy.
      split; [| split; [| split]]; [| | | exact Hlookup].
      * exists found0. split; [exact Hfree |]. split; [| tauto].
        intros _. split; [reflexivity | apply weight_sum_app].
      * split; [intros _; exact Hin |].
        intros _. apply elem_of_app. right. now apply list_elem_of_singleton.
      * intros ->. lia.
    + assert (Hout : ~ (0 <= age <= 30)) by (intros H; apply Hy in H; discriminate).
      split; [| split; [| split]]; [| | | exact Hlookup].
      * exists found0. split; [exact Hfree |]. split; [tauto |].
        intros _. split; reflexivity.
      * split; [intros Hin; now destruct Hfree | tauto].
      * intros _. exact Hfree.
Qed.

Lemma young_domain_heuristic_witness :
  (analyze_url flaky_env "example.com" empty_world).1
  = Return (50, "Malicious", ["H7_Domain_Age"], 12)
  /\ ("H7_Domain_Age" ∈ ["H7_Domain_Age"] <-> 0 <= 12 <= 30)
  /\ (analyze_url offline_env "example.com" empty_world).1
     = Return (0, "Benign", [], -1)
  /\ ("H7_Domain_Age" ∈ @nil string <-> 0 <= -1 <= 30).
Proof.
  assert (Hyoung : analyze_url flaky_env "example.com" empty_world
                   = (Return (50, "Malicious", ["H7_Domain_Age"], 12),
                      (analyze_url flaky_env "example.com" empty_world).2))
    by (vm_compute; reflexivity).
  assert (Hunknown : analyze_url offline_env "example.com" empty_world
                     = (Return (0, "Benign", [], -1),
                        (analyze_url offline_env "example.com" empty_world).2))
    by (vm_compute; reflexivity).
  split; [vm_compute; reflexivity |].
  split; [exact (proj1 (proj2 (young_domain_heuristic _ _ _ _ _ _ _ _ Hyoung))) |].
  split; [vm_compute; reflexivity |].
  exact (proj1 (proj2 (young_domain_heuristic _ _ _ _ _ _ _ _ Hunknown))).
Defined.

(** C3.  For a URL that parsed, the returned verdict is computed from the
    returned score, which is never negative: 0 gives Benign, 1 to 19 give
    Suspicious, 20 and more give Malicious; in particular 1 gives
    Suspicious and 20 gives Malicious. *)
Theorem verdict_follows_score (env : Env) (url : string) (w w' : World)
    (score : Z) (verdict : string) (found : list string) (age : Z) :
  analyze_url env url w = (Return (score, verdict, found, age), w') ->
  is_error_verdict verdict = false ->
  0 <= score
  /\ verdict = final_verdict score
  /\ (score = 0 -> verdict = "Benign")
  /\ (1 <= score < 20 -> verdict = "Suspicious")
  /\ (20 <= score -> verdict = "Malicious")
  /\ final_verdict 0 = "Benign"
  /\ final_verdict 1 = "Suspicious"
  /\ final_verdict 20 = "Malicious".
Proof.
  intros Hrun Hok.
  destruct (analyze_url_returned _ _ _ _ _ _ _ _ Hrun)
    as [(Herr & _) | (p & x & hostname & _ & _ & _ & _ & _ & _ & Hfound & -> & ->)];
    [congruence |].
  rewrite Hfound. split; [apply triggered_sum_nonneg |].
  unfold final_verdict, malicious_threshold, suspicious_threshold.
  repeat split; try reflexivity; intros Hs.
  - now rewrite Hs.
  - destruct (Z.leb_spec 20 (weight_sum (triggered env url hostname (pr_path p)
                 (er_subdomain x) ("." +:+ er_suffix x) age))); [lia |].
    destruct (Z.leb_spec 1 (weight_sum (triggered env url hostname (pr_path p)
                 (er_subdomain x) ("." +:+ er_suffix x) age))); [reflexivity | lia].
  - destruct (Z.leb_spec 20 (weight_sum (triggered env url hostname (pr_path p)
                 (er_subdomain x) ("." +:+ er_suffix x) age))); [reflexivity | lia].
Qed.

Lemma verdict_follows_score_witness :
  (analyze_url offline_env "http://user@example.com/" empty_world).1
  = Return (10, "Suspicious", ["H3_At_Symbol"], -1)
  /\ is_error_verdict "Suspicious" = false
  /\ "Suspicious" = final_verdict 10.
Proof.
  assert (Hrun : analyze_url offline_env "http://user@example.com/" empty_world
                 = (Return (10, "Suspicious", ["H3_At_Symbol"], -1),
                    (analyze_url offline_env "http://user@example.com/" empty_world).2))
    by (vm_compute; reflexivity).
  split; [vm_compute; reflexivity |]. split; [reflexivity |].
  exact (proj1 (proj2 (verdict_follows_score _ _ _ _ _ _ _ _ Hrun eq_refl))).
Defined.

Lemma count_nonneg (c : ascii) (s : string) : 0 <= PyStr.count c s.
Proof.
  induction s as [|a s IH]; cbn [PyStr.count]; [lia |].
  destruct (Ascii.eqb a c); lia.
Qed.

(** The number of components of a text split at a character is one more
    than the number of occurrences of the character. *)
Lemma split_length (c : ascii) (s : string) :
  Z.of_nat (length (PyStr.split c s)) = PyStr.count c s + 1.
Proof.
  induction s as [|a s IH]; [reflexivity |].
  cbn [PyStr.split PyStr.count]. destruct (Ascii.eqb a c).
  - cbn [length]. lia.
  - pose proof (count_nonneg c s).
    destruct (PyStr.split c s) as [|p ps]; cbn [length] in *; lia.
Qed.

(** C4.  For a URL that parsed, the subdomain heuristic is recorded, and
    its weight added, exactly when the extracted subdomain holds at least
    two dots, which is when it has at least three components. *)
Theorem excessive_subdomains_heuristic (env : Env) (url : string) (w w' : World)
    (score : Z) (verdict : string) (found : list string) (age : Z) :
  analyze_url env url w = (Return (score, verdict, found, age), w') ->
  is_error_verdict verdict = false ->
  exists x,
    tld_extract env (url_to_parse url) = Return x
    /\ ("H5_Subdomains" ∈ found <-> 2 <= PyStr.count "." (er_subdomain x))
    /\ (2 <= PyStr.count "." (er_subdomain x)
        <-> (3 <= length (PyStr.split "." (er_subdomain x)))%nat)
    /\ exists before after,
         ("H5_Subdomains" ∉ before) /\ ("H5_Subdomains" ∉ after)
         /\ found = before
                    ++ (if 2 <=? PyStr.count "." (er_subdomain x)
                        then ["H5_Subdomains"] else [])
                    ++ after
         /\ score = weight_sum before
                    + (if 2 <=? PyStr.count "." (er_subdomain x)
                       then weight_of "H5_Subdomains" else 0)
                    + weight_sum after.
Proof.
  intros Hrun Hok.
  destruct (analyze_url_returned _ _ _ _ _ _ _ _ Hrun)
    as [(Herr & _) | (p & x & hostname & _ & Hx & _ & _ & _ & _ & Hfound & -> & _)];
    [congruence |].
  exists x. split; [exact Hx |].
  pose proof (split_length "." (er_subdomain x)) as Hlen.
  set (dots := PyStr.count "." (er_subdomain x)) in *.
  set (before := flag (hostname_is_ip env hostname) "H2_IP_Hostname"
                 ++ flag (PyStr.has_char "@" url) "H3_At_Symbol"
                 ++ flag (keyword_hit (pr_path p)) "H4_Keywords").
  set (after := flag (bool_decide ("." +:+ er_suffix x ∈ abused_TLD)) "H6_Abused_TLD"
                ++ flag (young age) "H7_Domain_Age").
  assert (Hshape : found = before ++ flag (2 <=? dots) "H5_Subdomains" ++ after).
  { rewrite Hfound. unfold triggered, before, after. now rewrite <- !app_assoc. }
  assert (Hb : "H5_Subdomains" ∉ before).
  { unfold before, flag.
    destruct (hostname_is_ip env hostname), (PyStr.has_char "@" url),
      (keyword_hit (pr_path p)); cbn [app];
      apply (bool_decide_unpack _); vm_compute; exact I. }
  assert (Ha : "H5_Subdomains" ∉ after).
  { unfold after, flag.
    destruct (bool_decide ("." +:+ er_suffix x ∈ abused_TLD)), (young age); cbn [app];
      apply (bool_decide_unpack _); vm_compute; exact I. }
  clearbody before after. clear Hfound. unfold flag in Hshape.
  split; [| split; [lia |]].
  - rewrite Hshape, !elem_of_app.
    destruct (Z.leb_spec 2 dots) as [Hge|Hlt].
    + split; [intros _; exact Hge |].
      intros _. right. left. now apply list_elem_of_singleton.
    + split; [| lia]. intros [Hin | [Hin | Hin]]; try tauto.
      now apply elem_of_nil in Hin.
  - exists before, after. repeat split; auto.
    rewrite Hshape, !weight_sum_app.
    destruct (2 <=? dots); cbn; lia.
Qed.

Lemma excessive_subdomains_heuristic_witness :
  (analyze_url offline_env one_subdomain_url empty_world).1
  = Return (0, "Benign", [], -1)
  /\ (analyze_url offline_env three_subdomains_url empty_world).1
     = Return (15, "Suspicious", ["H5_Subdomains"], -1)
  /\ (exists x, tld_extract offline_env (url_to_parse one_subdomain_url) = Return x
                /\ er_subdomain x = "www"
                /\ ("H5_Subdomains" ∈ @nil string <-> 2 <= PyStr.count "." (er_subdomain x)))
  /\ (exists x, tld_extract offline_env (url_to_parse three_subdomains_url) = Return x
                /\ er_subdomain x = "a.b.c"
                /\ ("H5_Subdomains" ∈ ["H5_Subdomains"]
                    <-> 2 <= PyStr.count "." (er_subdomain x))).
Proof.
  assert (Hone : analyze_url offline_env one_subdomain_url empty_world
                 = (Return (0, "Benign", [], -1),
                    (analyze_url offline_env one_subdomain_url empty_world).2))
    by (vm_compute; reflexivity).
  assert (Hthree : analyze_url offline_env three_subdomains_url empty_world
                   = (Return (15, "Suspicious", ["H5_Subdomains"], -1),
                      (analyze_url offline_env three_subdomains_url empty_world).2))
    by (vm_compute; reflexivity).
  split; [vm_compute; reflexivity |]. split; [vm_compute; reflexivity |]. split.
  - destruct (excessive_subdomains_heuristic _ _ _ _ _ _ _ _ Hone eq_refl)
      as (x & Hx & Hiff & _).
    exists x. split; [exact Hx |]. split; [| exact Hiff].
    vm_compute in Hx. injection Hx as <-. reflexivity.
  - destruct (excessive_subdomains_heuristic _ _ _ _ _ _ _ _ Hthree eq_refl)
      as (x & Hx & Hiff & _).
    exists x. split; [exact Hx |]. split; [| exact Hiff].
    vm_compute in Hx. injection Hx as <-. reflexivity.
Defined.

(** C5.  When parsing the normalised URL raises (in [urlparse] or
    in the domain extraction), [analyze_url] returns score 0, verdict
    [Error-Parsing], no heuristics and age [-1], having only printed the
    failure; when both succeed but the hostname is missing or empty, it
    returns score 0, verdict [Error-No-Hostname], no heuristics and age
    [-1] and leaves the world as it was.  Neither path consults the age
    cache or the WHOIS service. *)
Theorem parse_failure_result (env : Env) (url : string) (w : World) :
  (forall e,
     urlparse env (url_to_parse url) = Raise e
     \/ ((exists p, urlparse env (url_to_parse url) = Return p)
         /\ tld_extract env (url_to_parse url) = Raise e) ->
     analyze_url env url w
     = (Return (0, "Error-Parsing", [], -1),
        mkWorld (whois_cache w)
                (stdout w ++ ["Failed to parse " +:+ url +:+ ": " +:+ exc_msg e])
                (whois_log w) (sleeps w) (disk w)))
  /\ (forall p x,
        urlparse env (url_to_parse url) = Return p ->
        tld_extract env (url_to_parse url) = Return x ->
        pr_hostname p = None \/ pr_hostname p = Some "" ->
        analyze_url env url w = (Return (0, "Error-No-Hostname", [], -1), w)).
Proof.
  split.
  - intros e He. unfold analyze_url. run_monad. rewrite parse_features_run.
    destruct He as [-> | [[p ->] ->]]; reflexivity.
  - intros p x Hp Hx Hh. unfold analyze_url. run_monad. rewrite parse_features_run.
    rewrite Hp, Hx. destruct Hh as [-> | ->]; reflexivity.
Qed.

Lemma parse_failure_result_witness :
  analyze_url offline_env unbalanced_bracket_url empty_world
  = (Return (0, "Error-Parsing", [], -1),
     mkWorld ∅ ["Failed to parse http://[::1: Invalid IPv6 URL"] [] 0 NoFile)
  /\ analyze_url offline_env "" empty_world
     = (Return (0, "Error-No-Hostname", [], -1), empty_world).
Proof.
  split.
  - apply (proj1 (parse_failure_result offline_env unbalanced_bracket_url empty_world)
             (Exc ValueError "Invalid IPv6 URL")).
    left. vm_compute. reflexivity.
  - apply (proj2 (parse_failure_result offline_env "" empty_world)
             (mkParsedUrl None "") (mkExtractResult "" "" ""));
      [vm_compute; reflexivity | vm_compute; reflexivity | left; reflexivity].
Defined.

(** ** Normalisation of the URL and what [urlparse] makes of it *)

Section StringFacts.

Lemma append_cons (a : ascii) (s t : string) :
  String a s +:+ t = String a (s +:+ t).
Proof. reflexivity. Qed.















End StringFacts.

Section UrlparseFacts.





End UrlparseFacts.

(** A scheme is no IP address: its first character is a letter, and it
    has no colon. *)
Section SchemeFacts.








End SchemeFacts.




(** * Further properties of the cache and the scorer *)

Lemma prefix_append (p t : string) : String.prefix p (p +:+ t) = true.
Proof.
  induction p as [|a p IH]; [now destruct t |].
  rewrite append_cons. cbn [String.prefix].
  destruct (ascii_dec a a); [exact IH | congruence].
Qed.

Lemma prefix_append_same (p x y : string) :
  String.prefix x y = true -> String.prefix (p +:+ x) (p +:+ y) = true.
Proof.
  intros Hxy. induction p as [|a p IH]; [exact Hxy |].
  rewrite !append_cons. cbn [String.prefix].
  destruct (ascii_dec a a); [exact IH | congruence].
Qed.

(** X1.  A lookup never changes or removes an entry of the cache: the old
    cache is contained in the new one, every other domain reads as before,
    and neither the disk nor earlier output is touched. *)
Theorem lookup_keeps_entries (env : Env) (domain : string) (w : World) :
  whois_cache w ⊆ whois_cache (get_domain_age env domain w).2
  /\ (forall d, d <> domain ->
        whois_cache (get_domain_age env domain w).2 !! d = whois_cache w !! d)
  /\ disk (get_domain_age env domain w).2 = disk w
  /\ stdout w `prefix_of` stdout (get_domain_age env domain w).2.
Proof.
  destruct (whois_cache w !! domain) as [age|] eqn:Hc.
  - rewrite (get_domain_age_hit env domain w age Hc). cbn [snd].
    repeat split; auto.
  - rewrite (get_domain_age_miss env domain w Hc). cbn [snd whois_cache disk stdout].
    repeat split.
    + now apply insert_subseteq.
    + intros d Hd. now apply lookup_insert_ne.
    + now apply prefix_app_r.
Qed.

(** X2.  On a miss answered with an aware creation date (alone, or first
    in a list), the lookup stores and returns the whole days elapsed,
    rounded down; that age lies in [0, 30] exactly when the domain was
    created at most 31 days, less a microsecond, before the query. *)
Theorem fresh_lookup_age (env : Env) (domain : string) (w : World)
    (cd : creation_date_t) (micros : Z) :
  whois_cache w !! domain = None ->
  whois_whois env (length (whois_log w)) domain = Return cd ->
  (cd = CdOne (Datetime true micros)
   \/ exists others, cd = CdList (Datetime true micros :: others)) ->
  let elapsed := utc_now env (S (length (whois_log w))) - micros in
  exists w',
    get_domain_age env domain w = (Return (elapsed `div` 86400000000), w')
    /\ whois_cache w' !! domain = Some (elapsed `div` 86400000000)
    /\ (0 <= elapsed `div` 86400000000 <= 30 <-> 0 <= elapsed < 31 * 86400000000).
Proof.
  intros Hmiss Hwho Hcd elapsed.
  assert (Hage : queried_age env (length (whois_log w)) domain
                 = elapsed `div` 86400000000).
  { unfold queried_age. rewrite Hwho.
    destruct Hcd as [-> | [others ->]]; reflexivity. }
  rewrite (get_domain_age_miss env domain w Hmiss). cbv zeta. rewrite Hage.
  eexists. split; [reflexivity |]. split; [cbn; apply lookup_insert_eq |].
  pose proof (Z.div_mod elapsed 86400000000 ltac:(lia)) as Hdm.
  pose proof (Z.mod_pos_bound elapsed 86400000000 ltac:(lia)) as Hr.
  lia.
Qed.

Lemma fresh_lookup_age_witness :
  exists w',
    get_domain_age flaky_env "example.com" empty_world = (Return 12, w')
    /\ whois_cache w' !! "example.com" = Some 12.
Proof.
  destruct (fresh_lookup_age flaky_env "example.com" empty_world
              (CdList [Datetime true 0; Datetime true 86400000000]) 0
              eq_refl eq_refl (or_intror (ex_intro _ _ eq_refl)))
    as (w' & Hrun & Hstored & _).
  exists w'. split; [exact Hrun | exact Hstored].
Defined.

(** X3.  On a miss answered with a creation date that is a naive
    [datetime] or unparsed non-empty text (alone, or first in a list), the
    subtraction from the aware clock fails inside the lookup: the sentinel
    [-1] is stored and returned and the failure is printed. *)
Theorem unusable_date_is_unknown (env : Env) (domain : string) (w : World)
    (cd : creation_date_t) (d : py_date) :
  whois_cache w !! domain = None ->
  whois_whois env (length (whois_log w)) domain = Return cd ->
  (cd = CdOne d \/ exists others, cd = CdList (d :: others)) ->
  ((exists micros, d = Datetime false micros)
   \/ exists c s, d = DateText (String c s)) ->
  exists w' line,
    get_domain_age env domain w = (Return (-1), w')
    /\ whois_cache w' = <[domain := -1]> (whois_cache w)
    /\ stdout w' = stdout w ++ [nl +:+ " Looking up " +:+ domain; line]
    /\ String.prefix ("Failed for " +:+ domain +:+ ": ") line = true.
Proof.
  intros Hmiss Hwho Hcd Hd.
  rewrite (get_domain_age_miss env domain w Hmiss). cbv zeta.
  unfold queried_age, queried_output. rewrite Hwho.
  assert (Hpre : forall t, String.prefix ("Failed for " +:+ domain +:+ ": ")
                             ("Failed for " +:+ domain +:+ ": " +:+ t) = true).
  { intros t. apply prefix_append_same, prefix_append_same, prefix_append. }
  destruct Hd as [[micros ->] | (c & s & ->)];
    destruct Hcd as [-> | [others ->]]; cbn [creation_date_truthy PyStr.truthy];
    eexists _, _; (split; [reflexivity |]); (split; [reflexivity |]);
    (split; [reflexivity |]); apply Hpre.
Qed.

(** A provider whose records carry naive dates. *)
Lemma unusable_date_is_unknown_witness :
  exists w' line,
    get_domain_age (reference_env demo_suffixes
                      (λ _ _, Return (CdOne (Datetime false 0))) (λ _, 5))
      "example.com" empty_world = (Return (-1), w')
    /\ whois_cache w' = <[ "example.com" := -1 ]> ∅
    /\ stdout w' = [nl +:+ " Looking up example.com"; line]
    /\ String.prefix "Failed for example.com: " line = true.
Proof.
  apply (unusable_date_is_unknown
           (reference_env demo_suffixes
              (λ _ _, Return (CdOne (Datetime false 0))) (λ _, 5))
           "example.com" empty_world (CdOne (Datetime false 0)) (Datetime false 0)
           eq_refl eq_refl (or_introl eq_refl) (or_introl (ex_intro _ 0 eq_refl))).
Defined.

Lemma parses_features (env : Env) (url : string) (w : World) :
  if parses env url
  then exists feats, parse_features env url w = (Return (inr feats), w)
  else exists early w1, parse_features env url w = (Return (inl early), w1)
                        /\ whois_cache w1 = whois_cache w
                        /\ whois_log w1 = whois_log w
                        /\ sleeps w1 = sleeps w
                        /\ disk w1 = disk w
                        /\ stdout w `prefix_of` stdout w1.
Proof.
  rewrite parse_features_run. unfold parses, printed.
  destruct (urlparse env (url_to_parse url)) as [p|e];
    [destruct (tld_extract env (url_to_parse url)) as [x|e];
       [destruct (pr_hostname p) as [[|c h]|] |] |];
    try (eexists; reflexivity);
    eexists _, _; (split; [reflexivity |]); cbn;
    repeat split; try reflexivity; now apply prefix_app_r.
Qed.

(** X4.  [analyze_url] has exactly one way to fail: a URL that parses
    with a hostname and is longer than 75 characters raises
    [AttributeError] before anything is looked up or printed; every other
    URL gets a result. *)
Theorem scorer_raises_exactly_when_long (env : Env) (url : string) (w : World) :
  (parses env url = true /\ 75 < PyStr.len url ->
   analyze_url env url w
   = (Raise (Exc AttributeError "'dict' object has no attribute 'append'"), w))
  /\ (~ (parses env url = true /\ 75 < PyStr.len url) ->
      exists result w', analyze_url env url w = (Return result, w')).
Proof.
  pose proof (parses_features env url w) as Hp.
  destruct (parses env url).
  - destruct Hp as [feats Hp]. split.
    + intros [_ Hlen]. now apply (analyze_url_long env url w feats w).
    + intros Hnot. assert (Hshort : PyStr.len url <= 75) by lia.
      destruct feats as [[[[hostname path] main_domain] subdomain] tld].
      destruct (get_domain_age_returns env main_domain w) as (age & w2 & Hage & _).
      rewrite (analyze_url_short env url w _ _ _ _ _ w _ _ Hp Hshort Hage).
      eauto.
  - destruct Hp as (early & w1 & Hp & _). split.
    + intros [Hf _]. discriminate.
    + intros _. rewrite (analyze_url_early env url w early w1 Hp). eauto.
Qed.

Lemma scorer_raises_exactly_when_long_witness :
  analyze_url offline_env long_xyz_url empty_world = (Raise attribute_error, empty_world)
  /\ exists result w',
       analyze_url offline_env one_subdomain_url empty_world = (Return result, w').
Proof.
  split.
  - apply (proj1 (scorer_raises_exactly_when_long offline_env long_xyz_url empty_world)).
    split; vm_compute; reflexivity.
  - apply (proj2 (scorer_raises_exactly_when_long offline_env one_subdomain_url
                    empty_world)).
    intros [_ Hlen]. vm_compute in Hlen. discriminate.
Defined.

(** X5.  Scoring a URL, whether it returns or raises, never writes the
    disk, never changes or removes a cache entry, keeps the earlier
    output, and sleeps and queries the WHOIS service at most once. *)
Theorem scoring_side_effects (env : Env) (url : string) (w : World) :
  disk (analyze_url env url w).2 = disk w
  /\ whois_cache w ⊆ whois_cache (analyze_url env url w).2
  /\ stdout w `prefix_of` stdout (analyze_url env url w).2
  /\ (length (whois_log (analyze_url env url w).2) <= length (whois_log w) + 1)%nat
  /\ (sleeps (analyze_url env url w).2 <= sleeps w + 1)%nat.
Proof.
  pose proof (parses_features env url w) as Hp.
  destruct (parses env url).
  - destruct Hp as [feats Hp].
    destruct (Z_lt_le_dec 75 (PyStr.len url)) as [Hlong|Hshort].
    + rewrite (analyze_url_long env url w feats w Hp Hlong). cbn [snd].
      repeat split; try reflexivity; lia.
    + destruct feats as [[[[hostname path] main_domain] subdomain] tld].
      destruct (whois_cache w !! main_domain) as [age|] eqn:Hc.
      * rewrite (analyze_url_short env url w _ _ _ _ _ w _ _ Hp Hshort
                   (get_domain_age_hit env main_domain w age Hc)).
        cbn [snd]. repeat split; try reflexivity; lia.
      * rewrite (analyze_url_short env url w _ _ _ _ _ w _ _ Hp Hshort
                   (get_domain_age_miss env main_domain w Hc)).
        cbn [snd disk whois_cache stdout whois_log sleeps].
        repeat split; [now apply insert_subseteq | now apply prefix_app_r | |lia].
        rewrite length_app. cbn. lia.
  - destruct Hp as (early & w1 & Hp & Hcache & Hlog & Hsleep & Hdisk & Hout).
    rewrite (analyze_url_early env url w early w1 Hp). cbn [snd].
    rewrite Hcache, Hlog, Hsleep, Hdisk. repeat split; auto; lia.
Qed.

(** X17.  Every WHOIS query is paced by exactly one pause: a lookup, and
    so the scoring of a URL, adds as many [time.sleep] calls as it adds
    queries to the provider, namely none on a hit and one on a miss. *)
Theorem one_pause_per_query (env : Env) (w : World) :
  (forall domain,
     (sleeps (get_domain_age env domain w).2 + length (whois_log w)
      = sleeps w + length (whois_log (get_domain_age env domain w).2))%nat
     /\ (whois_log (get_domain_age env domain w).2
         = whois_log w ++ (if bool_decide (is_Some (whois_cache w !! domain))
                           then [] else [domain])))
  /\ (forall url,
        (sleeps (analyze_url env url w).2 + length (whois_log w)
         = sleeps w + length (whois_log (analyze_url env url w).2))%nat).
Proof.
  assert (Hlookup : forall domain w0,
            (sleeps (get_domain_age env domain w0).2 + length (whois_log w0)
             = sleeps w0 + length (whois_log (get_domain_age env domain w0).2))%nat
            /\ (whois_log (get_domain_age env domain w0).2
                = whois_log w0 ++ (if bool_decide (is_Some (whois_cache w0 !! domain))
                                   then [] else [domain]))).
  { intros domain w0. destruct (whois_cache w0 !! domain) as [age|] eqn:Hc.
    - rewrite (get_domain_age_hit env domain w0 age Hc). cbn [snd].
      rewrite bool_decide_eq_true_2 by eauto. rewrite app_nil_r. split; [lia | reflexivity].
    - rewrite (get_domain_age_miss env domain w0 Hc). cbn [snd sleeps whois_log].
      rewrite bool_decide_eq_false_2 by (intros [v Hv]; discriminate).
      rewrite length_app. cbn [length]. split; [lia | reflexivity]. }
  split; [intros domain; apply Hlookup |].
  intros url. pose proof (parses_features env url w) as Hp.
  destruct (parses env url).
  - destruct Hp as [feats Hp].
    destruct (Z_lt_le_dec 75 (PyStr.len url)) as [Hlong|Hshort].
    + rewrite (analyze_url_long env url w feats w Hp Hlong). cbn [snd]. lia.
    + destruct feats as [[[[hostname path] main_domain] subdomain] tld].
      destruct (get_domain_age env main_domain w) as [r w2] eqn:Hage.
      destruct (get_domain_age_returns env main_domain w) as (age & w2' & Hage' & _).
      rewrite Hage in Hage'. injection Hage' as -> <-.
      rewrite (analyze_url_short env url w _ _ _ _ _ w _ _ Hp Hshort Hage).
      cbn [snd]. pose proof (proj1 (Hlookup main_domain w)) as Hl.
      rewrite Hage in Hl. exact Hl.
  - destruct Hp as (early & w1 & Hp & _ & Hlog & Hsleep & _).
    rewrite (analyze_url_early env url w early w1 Hp). cbn [snd].
    rewrite Hlog, Hsleep. lia.
Qed.

(** X6.  Scoring is stable: once [analyze_url] has returned a result for
    a parsed URL, scoring the same URL again in the resulting world gives
    the same result and changes nothing, so no second WHOIS query is
    made. *)
Theorem rescoring_is_stable (env : Env) (url : string) (w w' : World)
    (score : Z) (verdict : string) (found : list string) (age : Z) :
  analyze_url env url w = (Return (score, verdict, found, age), w') ->
  is_error_verdict verdict = false ->
  analyze_url env url w' = (Return (score, verdict, found, age), w').
Proof.
  intros Hrun Hok.
  destruct (analyze_url_returned _ _ _ _ _ _ _ _ Hrun)
    as [(Herr & _) | (p & x & hostname & Hp & Hx & Hh & Hne & Hlen & Hage & -> & -> & ->)];
    [congruence |].
  assert (Hstored : whois_cache w' !! top_domain_under_public_suffix x = Some age).
  { destruct (get_domain_age_returns env (top_domain_under_public_suffix x) w)
      as (age' & w2 & Hage' & Hst).
    rewrite Hage in Hage'. now injection Hage' as -> ->. }
  assert (Hparse : parse_features env url w'
                   = (Return (inr (hostname, pr_path p, top_domain_under_public_suffix x,
                                   er_subdomain x, "." +:+ er_suffix x)), w')).
  { rewrite parse_features_run, Hp, Hx, Hh.
    destruct hostname; [congruence | reflexivity]. }
  apply (analyze_url_short env url w' _ _ _ _ _ w' _ _ Hparse Hlen
           (get_domain_age_hit env _ w' age Hstored)).
Qed.

Lemma rescoring_is_stable_witness :
  (analyze_url flaky_env "example.com" empty_world).1
  = Return (50, "Malicious", ["H7_Domain_Age"], 12)
  /\ analyze_url flaky_env "example.com"
       (analyze_url flaky_env "example.com" empty_world).2
     = (Return (50, "Malicious", ["H7_Domain_Age"], 12),
        (analyze_url flaky_env "example.com" empty_world).2).
Proof.
  assert (Hrun : analyze_url flaky_env "example.com" empty_world
                 = (Return (50, "Malicious", ["H7_Domain_Age"], 12),
                    (analyze_url flaky_env "example.com" empty_world).2))
    by (vm_compute; reflexivity).
  split; [vm_compute; reflexivity |].
  exact (rescoring_is_stable _ _ _ _ _ _ _ _ Hrun eq_refl).
Defined.

Lemma existsb_permutation {A} (f : A -> bool) (l1 l2 : list A) :
  l1 ≡ₚ l2 -> existsb f l1 = existsb f l2.
Proof.
  induction 1 as [|x l1 l2 _ IH|x y l|l1 l2 l3 _ IH1 _ IH2]; cbn [existsb].
  - reflexivity.
  - now rewrite IH.
  - now rewrite !orb_assoc, (orb_comm (f y)).
  - now rewrite IH1.
Qed.

(** X7.  The keyword loop does not depend on the order in which the set
    of keywords is iterated, and however many keywords occur in the path
    it adds the weight and records the identifier at most once. *)
Theorem keyword_loop_order_irrelevant (keywords keywords' : list string)
    (path : string) (total_score : Z) (heuristics_found : list string) (w : World) :
  keywords ≡ₚ keywords' ->
  keyword_loop keywords path total_score heuristics_found w
  = keyword_loop keywords' path total_score heuristics_found w
  /\ (keyword_loop keywords path total_score heuristics_found w
      = (Return (total_score, heuristics_found), w)
      \/ keyword_loop keywords path total_score heuristics_found w
         = (Return (total_score + weight_of "H4_Keywords",
                    heuristics_found ++ ["H4_Keywords"]), w)).
Proof.
  intros Hperm. rewrite !keyword_loop_run, (existsb_permutation _ _ _ Hperm).
  split; [reflexivity |].
  destruct (existsb _ keywords'); [right | left]; reflexivity.
Qed.

Lemma keyword_loop_order_irrelevant_witness :
  keyword_loop ["login"; "secure"; "bank"] "/Secure/Login" 0 [] empty_world
  = keyword_loop ["bank"; "secure"; "login"] "/Secure/Login" 0 [] empty_world
  /\ keyword_loop ["login"; "secure"; "bank"] "/Secure/Login" 0 [] empty_world
     = (Return (5, ["H4_Keywords"]), empty_world).
Proof.
  split; [| reflexivity].
  apply (keyword_loop_order_irrelevant ["login"; "secure"; "bank"]
           ["bank"; "secure"; "login"] "/Secure/Login" 0 [] empty_world).
  apply (bool_decide_unpack _). vm_compute. exact I.
Defined.

Lemma prefix_http (u : string) : PyStr.startswith ("http://" +:+ u) "http://" = true.
Proof. apply prefix_append. Qed.

(** X8.  Normalisation is idempotent and its result always starts with
    [http://] or [https://]; a URL that already starts with one of them
    is left as it is. *)
Theorem url_to_parse_idempotent (url : string) :
  url_to_parse (url_to_parse url) = url_to_parse url
  /\ (PyStr.startswith (url_to_parse url) "http://" = true
      \/ PyStr.startswith (url_to_parse url) "https://" = true)
  /\ (PyStr.startswith url "http://" = true \/ PyStr.startswith url "https://" = true ->
      url_to_parse url = url).
Proof.
  unfold url_to_parse.
  destruct (PyStr.startswith url "http://") eqn:H1;
    [| destruct (PyStr.startswith url "https://") eqn:H2]; cbn [orb negb].
  - rewrite H1. cbn [orb negb]. auto.
  - rewrite H1, H2. cbn [orb negb]. auto.
  - rewrite prefix_http. cbn [orb negb].
    split; [reflexivity |]. split; [left; reflexivity |].
    intros [H | H]; discriminate.
Qed.

(** X9.  The identifiers of a returned result appear in the fixed order
    H2, H3, H4, H5, H6, H7 (a sublist of that list), and the score is a
    multiple of 5 between 0 and 140. *)
Theorem found_in_recording_order (env : Env) (url : string) (w w' : World)
    (score : Z) (verdict : string) (found : list string) (age : Z) :
  analyze_url env url w = (Return (score, verdict, found, age), w') ->
  found `sublist_of` recording_order
  /\ 0 <= score <= 140
  /\ score `mod` 5 = 0.
Proof.
  intros Hrun.
  destruct (analyze_url_returned _ _ _ _ _ _ _ _ Hrun)
    as [(_ & -> & -> & _) | (p & x & hostname & _ & _ & _ & _ & _ & _ & -> & -> & _)].
  - split; [apply sublist_nil_l |]. split; [lia | reflexivity].
  - unfold triggered, flag.
    destruct (hostname_is_ip env hostname), (PyStr.has_char "@" url),
      (keyword_hit (pr_path p)), (2 <=? PyStr.count "." (er_subdomain x)),
      (bool_decide ("." +:+ er_suffix x ∈ abused_TLD)), (young age);
      (split; [unfold recording_order; cbn [app];
               repeat first [apply sublist_nil_l | apply sublist_skip | apply sublist_cons]
              |]);
      vm_compute; (split; [split; discriminate | reflexivity]).
Qed.

Lemma found_in_recording_order_witness :
  (analyze_url offline_env "http://user@example.xyz/secure/Login;x?q#f" empty_world).1
  = Return (35, "Malicious", ["H3_At_Symbol"; "H4_Keywords"; "H6_Abused_TLD"], -1)
  /\ ["H3_At_Symbol"; "H4_Keywords"; "H6_Abused_TLD"] `sublist_of` recording_order
  /\ 0 <= 35 <= 140
  /\ 35 `mod` 5 = 0.
Proof.
  assert (Hrun : analyze_url offline_env "http://user@example.xyz/secure/Login;x?q#f"
                   empty_world
                 = (Return (35, "Malicious",
                            ["H3_At_Symbol"; "H4_Keywords"; "H6_Abused_TLD"], -1),
                    (analyze_url offline_env
                       "http://user@example.xyz/secure/Login;x?q#f" empty_world).2))
    by (vm_compute; reflexivity).
  split; [vm_compute; reflexivity |].
  exact (found_in_recording_order _ _ _ _ _ _ _ _ Hrun).
Defined.

(** X10.  For a parsed URL the verdict is Benign exactly when no
    heuristic was recorded, and an IP hostname, an abused TLD or a young
    domain each suffice for Malicious. *)
Theorem verdict_by_heuristics (env : Env) (url : string) (w w' : World)
    (score : Z) (verdict : string) (found : list string) (age : Z) :
  analyze_url env url w = (Return (score, verdict, found, age), w') ->
  is_error_verdict verdict = false ->
  (verdict = "Benign" <-> found = [])
  /\ ("H2_IP_Hostname" ∈ found \/ "H6_Abused_TLD" ∈ found \/ "H7_Domain_Age" ∈ found ->
      verdict = "Malicious").
Proof.
  intros Hrun Hok.
  destruct (analyze_url_returned _ _ _ _ _ _ _ _ Hrun)
    as [(Herr & _) | (p & x & hostname & _ & _ & _ & _ & _ & _ & -> & -> & ->)];
    [congruence |].
  unfold triggered, flag.
  destruct (hostname_is_ip env hostname), (PyStr.has_char "@" url),
    (keyword_hit (pr_path p)), (2 <=? PyStr.count "." (er_subdomain x)),
    (bool_decide ("." +:+ er_suffix x ∈ abused_TLD)), (young age);
    cbn [app]; (split; [split; intros H; (discriminate || reflexivity) |]);
    try reflexivity;
    intros [H | [H | H]]; (reflexivity || (exfalso; revert H;
      apply (bool_decide_unpack _); vm_compute; exact I)).
Qed.

Lemma verdict_by_heuristics_witness :
  (analyze_url offline_env "http://192.168.1.1/" empty_world).1
  = Return (40, "Malicious", ["H2_IP_Hostname"], -1)
  /\ ("Malicious" = "Benign" <-> ["H2_IP_Hostname"] = [])
  /\ ("H2_IP_Hostname" ∈ ["H2_IP_Hostname"] \/ "H6_Abused_TLD" ∈ ["H2_IP_Hostname"]
      \/ "H7_Domain_Age" ∈ ["H2_IP_Hostname"] -> "Malicious" = "Malicious").
Proof.
  assert (Hrun : analyze_url offline_env "http://192.168.1.1/" empty_world
                 = (Return (40, "Malicious", ["H2_IP_Hostname"], -1),
                    (analyze_url offline_env "http://192.168.1.1/" empty_world).2))
    by (vm_compute; reflexivity).
  split; [vm_compute; reflexivity |].
  exact (verdict_by_heuristics _ _ _ _ _ _ _ _ Hrun eq_refl).
Defined.

(** X11.  What [save_cache] wrote survives a restart: a process that
    starts on the saved file loads exactly the saved cache, whatever its
    memory held, and then answers every saved domain from the cache
    without querying the provider. *)
Theorem saved_cache_survives_restart (env : Env) (w fresh : World) :
  openable (disk w) ->
  disk fresh = disk (save_cache w).2 ->
  whois_cache (check_cache fresh).2 = whois_cache w
  /\ forall domain age,
       whois_cache w !! domain = Some age ->
       get_domain_age env domain (check_cache fresh).2
       = (Return age, (check_cache fresh).2).
Proof.
  intros Hopen Hdisk.
  assert (Hsaved : disk (save_cache w).2 = JsonFile (whois_cache w))
    by now rewrite save_cache_run, Hopen.
  assert (Hload : whois_cache (check_cache fresh).2 = whois_cache w)
    by now rewrite check_cache_run, Hdisk, Hsaved.
  split; [exact Hload |].
  intros domain age Hin. apply get_domain_age_hit. now rewrite Hload.
Qed.

Lemma saved_cache_survives_restart_witness :
  whois_cache
    (check_cache (mkWorld ∅ [] [] 0
                    (disk (save_cache (mkWorld {[ "example.com" := 12 ]} [] [] 0 NoFile)).2))).2
  = <[ "example.com" := 12 ]> ∅.
Proof.
  pose proof (proj1 (saved_cache_survives_restart offline_env
                       (mkWorld {[ "example.com" := 12 ]} [] [] 0 NoFile)
                       (mkWorld ∅ [] [] 0
                          (disk (save_cache
                                   (mkWorld {[ "example.com" := 12 ]} [] [] 0 NoFile)).2))
                       eq_refl eq_refl)) as Hloaded.
  cbn [whois_cache] in Hloaded. exact Hloaded.
Defined.

(** * The command loop *)

Ltac run_session :=
  cbv beta iota zeta delta
    [mbind SM_bind M_bind mret SM_ret M_ret say in_world writerow answered print];
  cbn [world csv_rows prompts whois_cache stdout whois_log sleeps disk fst snd].

(** Scoring never changes or removes a cache entry. *)
Lemma scoring_cache_grows (env : Env) (url : string) (w : World) :
  whois_cache w ⊆ whois_cache (analyze_url env url w).2.
Proof.
  pose proof (parses_features env url w) as Hp.
  destruct (parses env url).
  - destruct Hp as [feats Hp].
    destruct (Z_lt_le_dec 75 (PyStr.len url)) as [Hlong|Hshort].
    + now rewrite (analyze_url_long env url w feats w Hp Hlong).
    + destruct feats as [[[[hostname path] main_domain] subdomain] tld].
      destruct (whois_cache w !! main_domain) as [age|] eqn:Hc.
      * now rewrite (analyze_url_short env url w _ _ _ _ _ w _ _ Hp Hshort
                       (get_domain_age_hit env main_domain w age Hc)).
      * rewrite (analyze_url_short env url w _ _ _ _ _ w _ _ Hp Hshort
                   (get_domain_age_miss env main_domain w Hc)).
        cbn. now apply insert_subseteq.
  - destruct Hp as (early & w1 & Hp & Hcache & _).
    rewrite (analyze_url_early env url w early w1 Hp). cbn [snd]. now rewrite Hcache.
Qed.

Section CommandLoopFacts.

Context (env : Env)
        (files : string -> input_file_state)
        (csv_open_error : option py_exception).

Lemma say_run (line : string) (s : Session) :
  say line s = (Return tt, mkSession (printed line (world s)) (csv_rows s) (prompts s)).
Proof. reflexivity. Qed.

Lemma analyze_url_crash (url : string) (w : World) :
  crashes env url = true ->
  analyze_url env url w = (Raise attribute_error, w).
Proof.
  unfold crashes. intros [Hp Hlen]%andb_true_iff. apply Z.ltb_lt in Hlen.
  pose proof (parses_features env url w) as Hf. rewrite Hp in Hf.
  destruct Hf as [feats Hf]. now apply (analyze_url_long env url w feats w).
Qed.

Lemma analyze_url_no_crash (url : string) (w : World) :
  crashes env url = false ->
  exists result w',
    analyze_url env url w = (Return result, w') /\ disk w' = disk w.
Proof.
  unfold crashes. intros Hc.
  pose proof (parses_features env url w) as Hf.
  destruct (parses env url).
  - destruct Hf as [feats Hf]. cbn [andb] in Hc. apply Z.ltb_ge in Hc.
    destruct feats as [[[[hostname path] main_domain] subdomain] tld].
    destruct (whois_cache w !! main_domain) as [age|] eqn:Hcache.
    + rewrite (analyze_url_short env url w _ _ _ _ _ w _ _ Hf Hc
                 (get_domain_age_hit env main_domain w age Hcache)).
      eauto.
    + rewrite (analyze_url_short env url w _ _ _ _ _ w _ _ Hf Hc
                 (get_domain_age_miss env main_domain w Hcache)).
      eexists _, _. split; reflexivity.
  - destruct Hf as (early & w1 & Hf & _ & _ & _ & Hdisk & _).
    rewrite (analyze_url_early env url w early w1 Hf). eauto.
Qed.

(** The loop over a batch without a crashing URL writes one row per URL,
    in order, and leaves the disk alone. *)
Lemma process_urls_ok (total : nat) (urls : list string) (gt : string) :
  Forall (λ url, crashes env url = false) urls ->
  forall (n : nat) (s : Session),
  exists rows s',
    process_urls env total n urls gt s = (Return tt, s')
    /\ csv_rows s' = csv_rows s ++ rows
    /\ Forall2 (λ url row, exists result w0 w1,
                  analyze_url env url w0 = (Return result, w1)
                  /\ row = result_row url gt result) urls rows
    /\ disk (world s') = disk (world s)
    /\ prompts s' = prompts s.
Proof.
  induction 1 as [|url urls Hurl _ IH]; intros n s.
  - exists [], s. cbn [process_urls]. rewrite app_nil_r. repeat split; auto.
  - cbn [process_urls]. run_session.
    destruct (analyze_url_no_crash url
                (mkWorld (whois_cache (world s))
                   (stdout (world s)
                    ++ ["Processing " +:+ pretty (n + 1)%nat +:+ "/" +:+ pretty total
                        +:+ ": " +:+ substring 0 70 url])
                   (whois_log (world s)) (sleeps (world s)) (disk (world s))) Hurl)
      as (result & w' & Hrun & Hdisk).
    rewrite Hrun.
    destruct (IH (S n) (mkSession w' (csv_rows s ++ [result_row url gt result]) (prompts s)))
      as (rows & s' & Hrest & Hrows & Hall & Hd & Hp).
    exists (result_row url gt result :: rows), s'.
    split; [exact Hrest |]. cbn [csv_rows world prompts] in *.
    split; [now rewrite Hrows, <- app_assoc |].
    split; [constructor; [eauto | exact Hall] |].
    split; [now rewrite Hd, Hdisk | exact Hp].
Qed.

(** A crashing URL ends the loop with the exception: the URLs before it
    have their rows, the ones after it are not looked at, and the cache
    left by each analysis is contained in the cache at the end. *)
Lemma process_urls_abort (total : nat) (pre : list string) (bad : string)
    (post : list string) (gt : string) :
  Forall (λ url, crashes env url = false) pre ->
  crashes env bad = true ->
  forall (n : nat) (s : Session),
  exists rows s',
    process_urls env total n (pre ++ bad :: post) gt s = (Raise attribute_error, s')
    /\ csv_rows s' = csv_rows s ++ rows
    /\ Forall2 (λ url row, exists result w0 w1,
                  analyze_url env url w0 = (Return result, w1)
                  /\ row = result_row url gt result
                  /\ whois_cache w1 ⊆ whois_cache (world s')) pre rows
    /\ disk (world s') = disk (world s)
    /\ whois_cache (world s) ⊆ whois_cache (world s')
    /\ prompts s' = prompts s.
Proof.
  intros Hpre Hbad.
  induction Hpre as [|url pre Hurl _ IH]; intros n s.
  - cbn [app process_urls]. run_session.
    rewrite (analyze_url_crash bad _ Hbad).
    eexists [], _. split; [reflexivity |].
    cbn [csv_rows world disk whois_cache prompts].
    rewrite app_nil_r. repeat split; auto.
  - cbn [app process_urls]. run_session.
    set (w0 := mkWorld (whois_cache (world s))
                 (stdout (world s)
                  ++ ["Processing " +:+ pretty (n + 1)%nat +:+ "/" +:+ pretty total
                      +:+ ": " +:+ substring 0 70 url])
                 (whois_log (world s)) (sleeps (world s)) (disk (world s))).
    destruct (analyze_url_no_crash url w0 Hurl) as (result & w' & Hrun & Hdisk).
    pose proof (scoring_cache_grows env url w0) as Hgrow.
    rewrite Hrun in *. cbn [snd] in Hgrow.
    destruct (IH (S n) (mkSession w' (csv_rows s ++ [result_row url gt result]) (prompts s)))
      as (rows & s' & Hrest & Hrows & Hall & Hd & Hc & Hp).
    exists (result_row url gt result :: rows), s'.
    split; [exact Hrest |]. cbn [csv_rows world prompts] in *.
    split; [now rewrite Hrows, <- app_assoc |].
    split; [constructor; [exists result, w0, w'; auto | exact Hall] |].
    split; [now rewrite Hd, Hdisk |].
    split; [etrans; [exact Hgrow | exact Hc] | exact Hp].
Qed.

(** The age that a lookup returns is the entry of the domain in the
    cache it leaves. *)
Lemma get_domain_age_stores (domain : string) (w w' : World) (age : Z) :
  get_domain_age env domain w = (Return age, w') ->
  whois_cache w' !! domain = Some age.
Proof.
  destruct (get_domain_age_returns env domain w) as (age0 & w0 & Hrun & Hin).
  rewrite Hrun. now intros [= <- <-].
Qed.

Lemma save_cache_returns (w : World) :
  exists w',
    save_cache w = (Return tt, w')
    /\ whois_cache w' = whois_cache w
    /\ whois_log w' = whois_log w
    /\ (openable (disk w) -> disk w' = JsonFile (whois_cache w))
    /\ write_failure (disk w') = write_failure (disk w)
    /\ (forall e after,
          write_failure (disk w) = Some (e, after) ->
          disk w' = after
          /\ stdout w' = stdout w ++ ["Could not save cache: " +:+ exc_msg e]).
Proof.
  rewrite save_cache_run. unfold openable.
  destruct (write_failure (disk w)) as [[e after]|] eqn:Hw;
    (eexists; split; [reflexivity |]); cbn [whois_cache whois_log disk stdout].
  - split; [reflexivity |]. split; [reflexivity |]. split; [discriminate |]. split.
    + pose proof (write_failure_stable ∅ (disk w)) as Hs.
      unfold disk_write in Hs. now rewrite Hw in Hs.
    + now intros e' after' [= <- <-].
  - split; [reflexivity |]. split; [reflexivity |]. split; [reflexivity |].
    split; [reflexivity | discriminate].
Qed.

(** X12.  A batch without a crashing URL ends normally: one row per
    non-blank line, in order, each made of the stripped URL, the ground
    truth and a result of the scorer; then the cache is saved, so that on
    an openable disk the file holds the cache in memory. *)
Theorem batch_written_and_saved (input_file gt : string) (lines : list string)
    (s : Session) :
  files input_file = InputLines lines ->
  Forall (λ url, crashes env url = false) (urls_of_lines lines) ->
  exists rows s',
    process_file env files input_file gt s = (Return tt, s')
    /\ csv_rows s' = csv_rows s ++ rows
    /\ Forall2 (λ url row, exists result w0 w1,
                  analyze_url env url w0 = (Return result, w1)
                  /\ row = result_row url gt result) (urls_of_lines lines) rows
    /\ (openable (disk (world s)) ->
        disk (world s') = JsonFile (whois_cache (world s'))).
Proof.
  intros Hfile Hok. unfold process_file, read_urls. rewrite Hfile.
  fold (urls_of_lines lines). run_session.
  match goal with
  | |- context [process_urls env ?t ?n ?u ?g ?s1] =>
      destruct (process_urls_ok t u g Hok n s1)
        as (rows & s2 & Hrun & Hrows & Hall & Hdisk & _)
  end.
  rewrite Hrun. cbn [world csv_rows prompts disk] in *.
  match goal with
  | |- context [save_cache ?w] =>
      destruct (save_cache_returns w) as (w3 & Hsave & Hcache & _ & Hsaved & _)
  end.
  rewrite Hsave. exists rows. eexists. split; [reflexivity |].
  cbn [csv_rows world]. split; [exact Hrows |]. split; [exact Hall |].
  intros Hopen. cbn [disk whois_cache] in *. rewrite Hcache.
  apply Hsaved. now rewrite Hdisk.
Qed.

(** X13.  A URL that parses and is longer than 75 characters aborts the
    batch.  Each URL before it has its row, in order: the URL, the ground
    truth and a result of the scorer; the URLs after it get none; the
    loop ends with the message of the [AttributeError] as the last line
    printed, past the [save_cache] of line 250, so the file on disk is
    not written.  What was looked up stays in memory: for every row of a
    parsed URL the age in the row is the entry of its registered domain
    in the cache at the end, and no earlier entry is lost. *)
Theorem long_url_aborts_batch (input_file gt : string) (lines pre post : list string)
    (bad : string) (s : Session) :
  files input_file = InputLines lines ->
  urls_of_lines lines = pre ++ bad :: post ->
  Forall (λ url, crashes env url = false) pre ->
  crashes env bad = true ->
  exists rows s',
    process_file env files input_file gt s = (Return tt, s')
    /\ csv_rows s' = csv_rows s ++ rows
    /\ Forall2 (λ url row, exists score verdict found age w0 w1,
                  analyze_url env url w0 = (Return (score, verdict, found, age), w1)
                  /\ row = result_row url gt (score, verdict, found, age)
                  /\ (is_error_verdict verdict = false ->
                      exists x,
                        tld_extract env (url_to_parse url) = Return x
                        /\ whois_cache (world s')
                             !! top_domain_under_public_suffix x = Some age))
               pre rows
    /\ disk (world s') = disk (world s)
    /\ whois_cache (world s) ⊆ whois_cache (world s')
    /\ prompts s' = prompts s
    /\ List.last (stdout (world s')) ""
       = "Critical error occurred: 'dict' object has no attribute 'append'".
Proof.
  intros Hfile Hsplit Hpre Hbad. unfold process_file, read_urls. rewrite Hfile.
  fold (urls_of_lines lines). rewrite Hsplit. run_session.
  match goal with
  | |- context [process_urls env ?t ?n _ ?g ?s1] =>
      destruct (process_urls_abort t pre bad post g Hpre Hbad n s1)
        as (rows & s2 & Hrun & Hrows & Hall & Hdisk & Hcache & Hprompts)
  end.
  rewrite Hrun. cbn [catches exc_type attribute_error]. run_session.
  exists rows. eexists. split; [reflexivity |].
  cbn [csv_rows world disk whois_cache stdout prompts] in *.
  split; [exact Hrows |]. split.
  - eapply Forall2_impl; [exact Hall |].
    intros url row ([[[score verdict] found] age] & w0 & w1 & Hscore & -> & Hin).
    exists score, verdict, found, age, w0, w1.
    split; [exact Hscore |]. split; [reflexivity |]. intros Hok.
    destruct (analyze_url_returned env url w0 _ _ _ _ _ Hscore)
      as [(Herr & _) | (p & x & hostname & _ & Hx & _ & _ & _ & Hage & _)];
      [congruence |].
    exists x. split; [exact Hx |].
    eapply lookup_weaken; [| exact Hin].
    exact (get_domain_age_stores _ _ _ _ Hage).
  - split; [exact Hdisk |]. split; [exact Hcache |]. split; [exact Hprompts |].
    apply last_last.
Qed.

(** X14.  A file that cannot be read is reported and skipped: the
    processing returns normally with one printed line, writes no row and
    touches neither the cache nor the disk. *)
Theorem unreadable_input_is_skipped (input_file gt : string) (s : Session) :
  (files input_file = InputMissing
   \/ exists e, files input_file = InputFails e) ->
  exists line,
    process_file env files input_file gt s
    = (Return tt, mkSession (printed line (world s)) (csv_rows s) (prompts s))
    /\ (files input_file = InputMissing ->
        line = "File not found: " +:+ input_file
               +:+ ". Please check the name and directory")
    /\ (forall e, files input_file = InputFails e ->
                  catches FileNotFoundError e = false ->
                  line = "Critical error occurred: " +:+ exc_msg e).
Proof.
  intros [Hfile | [e Hfile]]; unfold process_file, read_urls; rewrite Hfile;
    run_session.
  - eexists. split; [reflexivity |]. split; [reflexivity | discriminate].
  - destruct (catches FileNotFoundError e) eqn:Hc; run_session;
      (eexists; split; [reflexivity |]); (split; [discriminate |]);
      intros e' [= <-] Hc'; congruence.
Qed.

(** Whatever the batch, the loop only appends result rows and leaves the
    disk alone. *)
Lemma process_urls_run (total : nat) (gt : string) (urls : list string) :
  forall (n : nat) (s : Session),
  exists r rows s',
    process_urls env total n urls gt s = (r, s')
    /\ csv_rows s' = csv_rows s ++ rows
    /\ Forall (is_result_row env gt) rows
    /\ disk (world s') = disk (world s).
Proof.
  induction urls as [|url urls IH]; intros n s.
  - exists (Return tt), [], s. cbn [process_urls]. rewrite app_nil_r.
    repeat split; auto.
  - cbn [process_urls]. run_session.
    set (w0 := mkWorld (whois_cache (world s))
                 (stdout (world s)
                  ++ ["Processing " +:+ pretty (n + 1)%nat +:+ "/" +:+ pretty total
                      +:+ ": " +:+ substring 0 70 url])
                 (whois_log (world s)) (sleeps (world s)) (disk (world s))).
    destruct (crashes env url) eqn:Hc.
    + rewrite (analyze_url_crash url w0 Hc).
      eexists _, [], _. split; [reflexivity |]. cbn [csv_rows world disk].
      rewrite app_nil_r. repeat split; auto.
    + destruct (analyze_url_no_crash url w0 Hc) as (result & w' & Hrun & Hdisk).
      rewrite Hrun.
      destruct (IH (S n) (mkSession w' (csv_rows s ++ [result_row url gt result])
                            (prompts s)))
        as (r & rows & s' & Hrest & Hrows & Hall & Hd).
      exists r, (result_row url gt result :: rows), s'.
      split; [exact Hrest |]. cbn [csv_rows world] in *.
      split; [now rewrite Hrows, <- app_assoc |].
      split; [| now rewrite Hd, Hdisk].
      constructor; [| exact Hall]. exists url, result, w0, w'. auto.
Qed.

Lemma process_file_run (input_file gt : string) (s : Session) :
  exists rows s',
    process_file env files input_file gt s = (Return tt, s')
    /\ csv_rows s' = csv_rows s ++ rows
    /\ Forall (is_result_row env gt) rows
    /\ write_failure (disk (world s')) = write_failure (disk (world s)).
Proof.
  unfold process_file, read_urls.
  destruct (files input_file) as [|lines|e]; run_session.
  - exists []. eexists. split; [reflexivity |]. cbn [csv_rows world disk].
    rewrite app_nil_r. repeat split; auto.
  - match goal with
    | |- context [process_urls env ?t ?n ?u ?g ?s1] =>
        destruct (process_urls_run t g u n s1)
          as (r & rows & s2 & Hrun & Hrows & Hall & Hdisk)
    end.
    rewrite Hrun. cbn [world csv_rows prompts disk] in *. exists rows.
    destruct r as [[]|e].
    + match goal with
      | |- context [save_cache ?w] =>
          destruct (save_cache_returns w) as (w3 & Hsave & _ & _ & _ & Hkeep & _)
      end.
      rewrite Hsave. eexists. split; [reflexivity |]. cbn [csv_rows world].
      split; [exact Hrows |]. split; [exact Hall |].
      cbn [disk] in *. now rewrite Hkeep, Hdisk.
    + destruct (catches FileNotFoundError e); run_session;
        (eexists; split; [reflexivity |]); cbn [csv_rows world disk];
        (split; [exact Hrows |]); (split; [exact Hall |]); now rewrite Hdisk.
  - exists []. destruct (catches FileNotFoundError e); run_session;
      (eexists; split; [reflexivity |]); cbn [csv_rows world disk];
      rewrite app_nil_r; repeat split; auto.
Qed.

Lemma main_loop_run (answers : list string) :
  forall (s : Session) r s',
  main_loop env files answers s = Some (r, s') ->
  r = Return tt
  /\ exists rows,
       csv_rows s' = csv_rows s ++ rows
       /\ Forall (labelled_row env) rows
       /\ write_failure (disk (world s')) = write_failure (disk (world s)).
Proof.
  assert (Hgen : forall n answers, (length answers <= n)%nat ->
            forall (s : Session) r s',
            main_loop env files answers s = Some (r, s') ->
            r = Return tt
            /\ exists rows,
                 csv_rows s' = csv_rows s ++ rows
                 /\ Forall (labelled_row env) rows
                 /\ write_failure (disk (world s')) = write_failure (disk (world s))).
  { induction n as [|n IH]; intros l Hlen s r s'.
    - destruct l; [| cbn in Hlen; lia]. cbn [main_loop]. run_session. discriminate.
    - destruct l as [|input_file l]; [cbn [main_loop]; run_session; discriminate |].
      cbn [main_loop]. run_session.
      destruct (String.eqb (PyStr.lower input_file) "q").
      + intros [= <- <-]. split; [reflexivity |]. exists [].
        cbn [csv_rows world disk]. rewrite app_nil_r. repeat split; auto.
      + destruct l as [|answer l]; [discriminate |].
        assert (Hl : (length l <= n)%nat) by (cbn in Hlen; lia).
        destruct (bool_decide (PyStr.lower answer ∈ ["malicious"; "benign"])) eqn:Hgt;
          cbn [negb].
        * match goal with
          | |- context [process_file env files ?f ?g ?s1] =>
              destruct (process_file_run f g s1)
                as (rows & s2 & Hrun & Hrows & Hall & Hopen)
          end.
          rewrite Hrun. intros Hloop.
          destruct (IH l Hl s2 r s' Hloop) as (-> & rows' & Hrows' & Hall' & Hopen').
          split; [reflexivity |]. exists (rows ++ rows').
          cbn [csv_rows world disk] in *.
          split; [now rewrite Hrows', Hrows, <- app_assoc |].
          split; [| now rewrite Hopen', Hopen].
          apply Forall_app. split; [| exact Hall'].
          apply bool_decide_eq_true in Hgt.
          eapply Forall_impl; [exact Hall |].
          intros row Hrow. exists (PyStr.lower answer). split; [| exact Hrow].
          apply elem_of_cons in Hgt as [Hgt | Hgt]; [now left |].
          apply list_elem_of_singleton in Hgt. now right.
        * intros Hloop.
          match type of Hloop with
          | main_loop env files l ?s1 = _ =>
              destruct (IH l Hl s1 r s' Hloop) as (-> & rows' & Hrows' & Hall' & Hopen')
          end.
          split; [reflexivity |]. exists rows'. cbn [csv_rows world disk] in *. auto. }
  intros s r s'. apply (Hgen (length answers) answers). lia.
Qed.

Lemma check_cache_disk (w : World) : disk (check_cache w).2 = disk w.
Proof.
  rewrite check_cache_run.
  destruct (disk_read (disk w)) as [[d|v]|e]; try reflexivity.
  destruct (catches FileNotFoundError e); [reflexivity |].
  destruct (catches JSONDecodeError e); reflexivity.
Qed.

(** [check_cache] returns on a file that loads and raises, with the
    world as it was, on any other. *)
Lemma check_cache_returns (w : World) :
  if loads (disk w)
  then exists w', check_cache w = (Return tt, w')
  else exists e, check_cache w = (Raise e, w).
Proof.
  rewrite check_cache_run. unfold loads.
  destruct (disk_read (disk w)) as [[d|v]|e]; eauto.
  destruct (catches FileNotFoundError e); [cbn [orb]; eauto |].
  destruct (catches JSONDecodeError e); cbn [orb]; eauto.
Qed.

Lemma with_results_file_run (answers : list string) (s : Session) r s' :
  with_results_file env files csv_open_error answers s = Some (r, s') ->
  (exists rows,
     csv_rows s' = csv_rows s
                   ++ match csv_open_error, csv_rows s with
                      | None, [] => [header_row]
                      | _, _ => []
                      end
                   ++ rows
     /\ Forall (labelled_row env) rows)
  /\ write_failure (disk (world s')) = write_failure (disk (world s)).
Proof.
  unfold with_results_file.
  destruct csv_open_error as [e|].
  - intros [= <- <-]. split; [| reflexivity]. exists []. now rewrite !app_nil_r.
  - destruct (csv_rows s) as [|row0 old] eqn:Hold.
    + run_session. intros Hloop.
      destruct (main_loop_run answers _ r s' Hloop) as (_ & rows & Hrows & Hall & Hopen).
      cbn [csv_rows world disk] in *. rewrite Hold in Hrows.
      split; [exists rows; split; [exact Hrows | exact Hall] | exact Hopen].
    + intros Hloop.
      destruct (main_loop_run answers _ r s' Hloop) as (_ & rows & Hrows & Hall & Hopen).
      rewrite Hold in Hrows.
      split; [exists rows; split; [exact Hrows | exact Hall] | exact Hopen].
Qed.

(** X15.  The results file is append-only.  Whenever the program ends,
    the rows that were there are still there, in place; the header row is
    added exactly when the file was empty and could be opened; and every
    other row added is the result of the scorer for some URL, labelled
    [malicious] or [benign]. *)
Theorem results_file_is_append_only (answers : list string) (s : Session) r s' :
  main env files csv_open_error answers s = Some (r, s') ->
  exists rows,
    csv_rows s' = csv_rows s
                  ++ match r, csv_open_error, csv_rows s with
                     | Return _, None, [] => [header_row]
                     | _, _, _ => []
                     end
                  ++ rows
    /\ Forall (labelled_row env) rows.
Proof.
  unfold main. run_session.
  destruct (check_cache _) as [[[]|e] w1] eqn:Hload.
  - destruct (with_results_file env files csv_open_error answers _)
      as [[r1 s1]|] eqn:Hwith; [| discriminate].
    destruct (with_results_file_run answers _ r1 s1 Hwith) as [(rows & Hrows & Hall) _].
    cbn [csv_rows] in Hrows.
    assert (Hfinal : forall s2, csv_rows s2 = csv_rows s1 ->
              forall r0 s0,
              Some ((in_world save_cache;;
                     say (nl +:+ " Analysis Complete. Exiting.")) s2) = Some (r0, s0) ->
              r0 = Return tt /\ csv_rows s0 = csv_rows s1).
    { intros s2 Hs2 r0 s0. run_session.
      destruct (save_cache_returns (world s2)) as (w3 & Hsave & _).
      rewrite Hsave. intros [= <- <-]. auto. }
    intros Hend.
    destruct r1 as [[]|e1];
      (apply Hfinal in Hend; [| reflexivity]); destruct Hend as [-> Hcsv];
      rewrite Hcsv; exists rows; split; auto.
  - intros [= <- <-]. exists []. cbn [csv_rows]. now rewrite !app_nil_r.
Qed.

(** X16.  How a run ends, by the state of the cache file at the start.
    When the file does not load (bytes that are not text, a JSON scalar,
    an [open] that fails otherwise than by a missing file), the run ends
    with the exception of [check_cache] right after the banner.  When it
    loads, or is missing or rejected by the JSON decoder, every run that
    ends does so normally, with [save_cache] and then the farewell as the
    last steps: on a file that can be written the file then holds the
    cache in memory; on a file that cannot, the line before the farewell
    reports the failure and the file is what the failed write leaves. *)
Theorem exit_saves_cache (answers : list string) (s : Session) r s' :
  main env files csv_open_error answers s = Some (r, s') ->
  (loads (disk (world s)) = false ->
   (exists e, r = Raise e)
   /\ s' = mkSession (printed "SmishGrade Heuristic Analyzer" (world s))
                     (csv_rows s) (prompts s))
  /\ (loads (disk (world s)) = true ->
      r = Return tt
      /\ List.last (stdout (world s')) "" = nl +:+ " Analysis Complete. Exiting."
      /\ (openable (disk (world s)) ->
          disk (world s') = JsonFile (whois_cache (world s')))
      /\ (forall e after,
            write_failure (disk (world s)) = Some (e, after) ->
            disk (world s') = after
            /\ List.last (removelast (stdout (world s'))) ""
               = "Could not save cache: " +:+ exc_msg e)).
Proof.
  unfold main. run_session.
  match goal with
  | |- context [check_cache ?w0] =>
      pose proof (check_cache_returns w0) as Hload;
      pose proof (check_cache_disk w0) as Hdisk
  end.
  cbn [disk] in Hload, Hdisk.
  destruct (loads (disk (world s))).
  - destruct Hload as [w1 Hload]. rewrite Hload in *. cbn [snd] in Hdisk.
    destruct (with_results_file env files csv_open_error answers _)
      as [[r1 s1]|] eqn:Hwith; [| discriminate].
    destruct (with_results_file_run answers _ r1 s1 Hwith) as [_ Hkeep].
    cbn [world] in Hkeep. rewrite Hdisk in Hkeep.
    assert (Hfinal : forall s2, disk (world s2) = disk (world s1) ->
              forall r0 s0,
              Some ((in_world save_cache;;
                     say (nl +:+ " Analysis Complete. Exiting.")) s2) = Some (r0, s0) ->
              r0 = Return tt
              /\ List.last (stdout (world s0)) "" = nl +:+ " Analysis Complete. Exiting."
              /\ (openable (disk (world s)) ->
                  disk (world s0) = JsonFile (whois_cache (world s0)))
              /\ (forall e after,
                    write_failure (disk (world s)) = Some (e, after) ->
                    disk (world s0) = after
                    /\ List.last (removelast (stdout (world s0))) ""
                       = "Could not save cache: " +:+ exc_msg e)).
    { intros s2 Hs2 r0 s0. run_session. rewrite save_cache_run, Hs2, Hkeep.
      unfold openable.
      destruct (write_failure (disk (world s))) as [[e after]|];
        intros [= <- <-]; cbn [world disk whois_cache stdout];
        (split; [reflexivity |]); (split; [apply last_last |]).
      - split; [discriminate |]. intros e' after' [= <- <-].
        split; [reflexivity |]. now rewrite removelast_last, last_last.
      - split; [reflexivity | discriminate]. }
    intros Hend. split; [discriminate |]. intros _.
    destruct r1 as [[]|e1]; (apply Hfinal in Hend; [exact Hend | reflexivity]).
  - destruct Hload as [e Hload]. rewrite Hload. intros [= <- <-].
    split; [| discriminate]. intros _. split; [eauto | reflexivity].
Qed.

End CommandLoopFacts.

Lemma batch_written_and_saved_witness :
  exists rows s',
    process_file offline_env demo_files "good.txt" "benign" new_session = (Return tt, s')
    /\ csv_rows s' = [] ++ rows
    /\ length rows = 2%nat
    /\ disk (world s') = JsonFile (whois_cache (world s')).
Proof.
  destruct (batch_written_and_saved offline_env demo_files "good.txt" "benign"
              ["  www.example.com " +:+ nl; nl; "http://192.168.1.1/login" +:+ nl]
              new_session eq_refl)
    as (rows & s' & Hrun & Hrows & Hall & Hsaved).
  - replace (urls_of_lines ["  www.example.com " +:+ nl; nl;
                            "http://192.168.1.1/login" +:+ nl])
      with ["www.example.com"; "http://192.168.1.1/login"]
      by (vm_compute; reflexivity).
    repeat (constructor; [vm_compute; reflexivity |]). constructor.
  - exists rows, s'. split; [exact Hrun |]. split; [exact Hrows |].
    split; [symmetry; exact (Forall2_length _ _ _ Hall) |].
    apply Hsaved. reflexivity.
Defined.

Lemma long_url_aborts_batch_witness :
  exists s',
    process_file offline_env demo_files "mixed.txt" "malicious" new_session
    = (Return tt, s')
    /\ (exists score verdict found age,
          csv_rows s'
          = [result_row "www.example.com" "malicious" (score, verdict, found, age)]
          /\ (is_error_verdict verdict = false ->
              whois_cache (world s') !! "example.com" = Some age))
    /\ whois_cache (world s') !! "example.com" = Some (-1)
    /\ disk (world s') = NoFile
    /\ List.last (stdout (world s')) ""
       = "Critical error occurred: 'dict' object has no attribute 'append'".
Proof.
  destruct (long_url_aborts_batch offline_env demo_files "mixed.txt" "malicious"
              ["www.example.com" +:+ nl; long_xyz_url +:+ nl; "a.b.c.example.com"]
              ["www.example.com"] ["a.b.c.example.com"] long_xyz_url new_session
              eq_refl)
    as (rows & s' & Hrun & Hrows & Hall & Hdisk & _ & _ & Hlast).
  - vm_compute. reflexivity.
  - constructor; [vm_compute; reflexivity | constructor].
  - vm_compute. reflexivity.
  - exists s'. split; [exact Hrun |]. split; [| split; [| split]].
    + apply Forall2_cons_inv_l in Hall
        as (row & rest & (score & verdict & found & age & w0 & w1 & _ & -> & Hin)
            & Hrest & ->).
      apply Forall2_nil_inv_l in Hrest as ->.
      exists score, verdict, found, age. split; [exact Hrows |].
      intros Hok. destruct (Hin Hok) as (x & Hx & Hage).
      vm_compute in Hx. injection Hx as <-. exact Hage.
    + vm_compute in Hrun. injection Hrun as <-. reflexivity.
    + exact Hdisk.
    + exact Hlast.
Defined.

Lemma unreadable_input_is_skipped_witness :
  process_file offline_env demo_files "absent.txt" "benign" new_session
  = (Return tt,
     mkSession (printed "File not found: absent.txt. Please check the name and directory"
                  empty_world) [] 0)
  /\ process_file offline_env demo_files "locked.txt" "benign" new_session
     = (Return tt,
        mkSession (printed "Critical error occurred: [Errno 13] Permission denied: 'locked.txt'"
                     empty_world) [] 0).
Proof.
  split.
  - destruct (unreadable_input_is_skipped offline_env demo_files "absent.txt" "benign"
                new_session (or_introl eq_refl)) as (line & Hrun & Hmissing & _).
    rewrite Hrun, (Hmissing eq_refl). reflexivity.
  - destruct (unreadable_input_is_skipped offline_env demo_files "locked.txt" "benign"
                new_session (or_intror (ex_intro _ _ eq_refl)))
      as (line & Hrun & _ & Hfails).
    rewrite Hrun, (Hfails _ eq_refl eq_refl). reflexivity.
Defined.

Lemma results_file_is_append_only_witness :
  match main offline_env demo_files None ["mixed.txt"; "Malicious"; "Q"] new_session with
  | Some (r, s') =>
      exists rows, csv_rows s' = [] ++ [header_row] ++ rows
                   /\ Forall (labelled_row offline_env) rows
  | None => False
  end.
Proof.
  destruct (main offline_env demo_files None ["mixed.txt"; "Malicious"; "Q"] new_session)
    as [[r s']|] eqn:Hmain.
  - destruct (results_file_is_append_only offline_env demo_files None _ _ _ _ Hmain)
      as (rows & Hrows & Hall).
    exists rows. split; [| exact Hall].
    rewrite Hrows. destruct r as [u|e]; [reflexivity |].
    vm_compute in Hmain. discriminate.
  - vm_compute in Hmain. discriminate.
Defined.

Lemma exit_saves_cache_witness :
  (exists s',
     main offline_env demo_files None ["good.txt"; "benign"; "q"] new_session
     = Some (Return tt, s')
     /\ disk (world s') = JsonFile (whois_cache (world s'))
     /\ List.last (stdout (world s')) "" = nl +:+ " Analysis Complete. Exiting.")
  /\ (exists s',
        main offline_env demo_files None ["good.txt"; "benign"; "q"]
          (mkSession (mkWorld ∅ [] [] 0 read_only_disk) [] 0)
        = Some (Return tt, s')
        /\ disk (world s') = read_only_disk
        /\ whois_cache (world s') !! "example.com" = Some (-1)
        /\ List.last (removelast (stdout (world s'))) ""
           = "Could not save cache: [Errno 13] Permission denied: 'whois_cache.json'")
  /\ (exists e s',
        main offline_env demo_files None ["good.txt"; "benign"; "q"]
          (mkSession (mkWorld ∅ [] [] 0 (JsonScalar JsonNull)) [] 0)
        = Some (Raise e, s')
        /\ csv_rows s' = []).
Proof.
  split; [| split].
  - destruct (main offline_env demo_files None ["good.txt"; "benign"; "q"] new_session)
      as [[r s']|] eqn:Hmain; [| vm_compute in Hmain; discriminate].
    destruct (exit_saves_cache offline_env demo_files None _ _ r s' Hmain)
      as [_ Hends].
    destruct (Hends eq_refl) as (-> & Hlast & Hsaved & _).
    exists s'. split; [reflexivity |]. split; [exact (Hsaved eq_refl) | exact Hlast].
  - destruct (main offline_env demo_files None ["good.txt"; "benign"; "q"]
                (mkSession (mkWorld ∅ [] [] 0 read_only_disk) [] 0))
      as [[r s']|] eqn:Hmain; [| vm_compute in Hmain; discriminate].
    destruct (exit_saves_cache offline_env demo_files None _ _ r s' Hmain)
      as [_ Hends].
    destruct (Hends eq_refl) as (-> & _ & _ & Hfailed).
    destruct (Hfailed _ _ eq_refl) as [Hdisk Hline].
    exists s'. split; [reflexivity |]. split; [exact Hdisk |].
    split; [| exact Hline].
    vm_compute in Hmain. injection Hmain as <-. reflexivity.
  - destruct (main offline_env demo_files None ["good.txt"; "benign"; "q"]
                (mkSession (mkWorld ∅ [] [] 0 (JsonScalar JsonNull)) [] 0))
      as [[r s']|] eqn:Hmain; [| vm_compute in Hmain; discriminate].
    destruct (exit_saves_cache offline_env demo_files None _ _ r s' Hmain)
      as [Hends _].
    destruct (Hends eq_refl) as ([e ->] & ->).
    exists e. eexists. split; reflexivity.
Defined.
